(** * Numba support for clifford's MultiVector: a shallow embedding

    The development follows [clifford/numba/_multivector.py].  That module is
    glue between a host object (a [MultiVector]: an algebra description plus a
    coefficient array) and the JIT framework's extension points: a compiled
    type, its struct model, a constructor typer and lowering, the boundary
    conversions (unboxing and boxing) and two attribute wrappers.

    Layout of the file:
    - [Host]: host-level Python results (a value or a raised exception);
    - [Numpy]: the scalar dtypes of the array library;
    - [Types]: the JIT framework's types, [from_dtype], [as_dtype], and the
      class [MultiVectorType] with its properties, the struct model and the
      constructor typer;
    - [Runtime]: the object heap, the error indicator, the C-API calls the
      generated code makes, the framework's array converters, and the
      models of the layout converters and of the host class;
    - [Lowering]: the registered functions of the module: the dispatcher's
      type computation, the lowering of the constructor, the unboxer, the
      boxer and the attribute wrappers;
    - [Observe], [Example], [Logic]: observations on host objects, a
      concrete world, and the predicates the statements use;
    - the rules for the calls and the theorems, one per claim. *)

From Stdlib Require Import ZArith Lia Bool.
From stdpp Require Import base option list gmap strings pretty fin_maps.

Local Open Scope string_scope.

(* ===================================================================== *)
(** ** Host-level results *)
(* ===================================================================== *)

Module Host.

(** The exceptions the modelled code can raise. *)
Inductive exn : Type :=
| AssertionError
| NotImplementedError
| AttributeError
| TypeError
| SystemError.

(** A host-level call either returns or raises. *)
Inductive pyres (A : Type) : Type :=
| Return (a : A)
| Raise (e : exn).
Arguments Return {A} a.
Arguments Raise {A} e.

#[global] Instance pyres_ret : MRet pyres := fun A a => Return a.

#[global] Instance pyres_bind : MBind pyres := fun A B k m =>
  match m with
  | Return a => k a
  | Raise e => Raise e
  end.

#[global] Instance exn_eq_dec : EqDecision exn.
Proof. solve_decision. Defined.

End Host.
Import Host.

(* ===================================================================== *)
(** ** The array library's scalar dtypes *)
(* ===================================================================== *)

Module Numpy.

Inductive int_width : Type := W8 | W16 | W32 | W64.

(** [FLong] is the platform's extended precision ([longdouble],
    [float128] and, for complex numbers, [complex256]). *)
Inductive float_width : Type := F32 | F64 | FLong.

(** [np.dtype] instances (the scalar dtypes; byte order is native). *)
Inductive dtype : Type :=
| dt_bool
| dt_int (w : int_width)
| dt_uint (w : int_width)
| dt_float (f : float_width)
| dt_complex (f : float_width)
| dt_object.

#[global] Instance int_width_eq_dec : EqDecision int_width.
Proof. solve_decision. Defined.
#[global] Instance float_width_eq_dec : EqDecision float_width.
Proof. solve_decision. Defined.
#[global] Instance dtype_eq_dec : EqDecision dtype.
Proof. solve_decision. Defined.

Definition int_bytes (w : int_width) : Z :=
  match w with W8 => 1 | W16 => 2 | W32 => 4 | W64 => 8 end.

Definition float_bytes (f : float_width) : Z :=
  match f with F32 => 4 | F64 => 8 | FLong => 16 end.

(** [dtype.itemsize]: bytes per element. *)
Definition itemsize (d : dtype) : Z :=
  match d with
  | dt_bool => 1
  | dt_int w | dt_uint w => int_bytes w
  | dt_float f => float_bytes f
  | dt_complex f => 2 * float_bytes f
  | dt_object => 8
  end.

End Numpy.
Import Numpy.

(* ===================================================================== *)
(** ** The JIT framework's types *)
(* ===================================================================== *)

Module Types.

(** The framework has 32- and 64-bit floating point only. *)
Inductive nb_fwidth : Type := NF32 | NF64.

(** Array layouts: C- or Fortran-contiguous, or any. *)
Inductive array_layout : Type := LayoutC | LayoutF | LayoutA.

(** ** class MultiVectorType(types.Type)

    An instance holds the [dtype] it was constructed with and the [name]
    passed to the base class. *)
Record MultiVectorType : Type := mkMultiVectorType {
  dtype : Numpy.dtype;
  name : string
}.

(** The framework types that occur in the module.  [LayoutType] is
    imported from [._layout];

    Modelled from the spec: [_layout.py] is not among the sources.  The
    algebra-description reference "is treated as a single opaque
    capability type regardless of which concrete algebra it denotes", so
    [LayoutType()] takes no argument and all its instances are one type. *)
Inductive nb_type : Type :=
| Boolean
| Integer (signed : bool) (w : int_width)
| Float (f : nb_fwidth)
| Complex (f : nb_fwidth)
| PyObject
| NoneType
| Array (elt : nb_type) (ndim : nat) (layout : array_layout)
| LayoutType
| MultiVector (t : MultiVectorType).

#[global] Instance nb_fwidth_eq_dec : EqDecision nb_fwidth.
Proof. solve_decision. Defined.
#[global] Instance array_layout_eq_dec : EqDecision array_layout.
Proof. solve_decision. Defined.
#[global] Instance MultiVectorType_eq_dec : EqDecision MultiVectorType.
Proof. solve_decision. Defined.
#[global] Instance nb_type_eq_dec : EqDecision nb_type.
Proof. solve_decision. Defined.

(** [numba.from_dtype]: a lookup in the framework's table of supported
    dtypes; a dtype outside the table raises [NotImplementedError].
    Extended precision is outside it. *)
Definition from_dtype (d : Numpy.dtype) : pyres nb_type :=
  match d with
  | dt_bool => Return Boolean
  | dt_int w => Return (Integer true w)
  | dt_uint w => Return (Integer false w)
  | dt_float F32 => Return (Float NF32)
  | dt_float F64 => Return (Float NF64)
  | dt_float FLong => Raise NotImplementedError
  | dt_complex F32 => Return (Complex NF32)
  | dt_complex F64 => Return (Complex NF64)
  | dt_complex FLong => Raise NotImplementedError
  | dt_object => Return PyObject
  end.

(** [numpy_support.as_dtype]: the dtype of a framework scalar type; other
    types "cannot be represented as a NumPy dtype". *)
Definition as_dtype (t : nb_type) : pyres Numpy.dtype :=
  match t with
  | Boolean => Return dt_bool
  | Integer true w => Return (dt_int w)
  | Integer false w => Return (dt_uint w)
  | Float NF32 => Return (dt_float F32)
  | Float NF64 => Return (dt_float F64)
  | Complex NF32 => Return (dt_complex F32)
  | Complex NF64 => Return (dt_complex F64)
  | PyObject => Return dt_object
  | NoneType | Array _ _ _ | LayoutType | MultiVector _ =>
      Raise NotImplementedError
  end.

Definition int_width_repr (w : int_width) : string :=
  match w with W8 => "8" | W16 => "16" | W32 => "32" | W64 => "64" end.

Definition array_layout_repr (l : array_layout) : string :=
  match l with LayoutC => "C" | LayoutF => "F" | LayoutA => "A" end.

Definition ndim_repr (n : nat) : string := pretty n ++ "d".

(** [repr] of a framework type is its name. *)
Fixpoint repr (t : nb_type) : string :=
  match t with
  | Boolean => "bool"
  | Integer true w => "int" ++ int_width_repr w
  | Integer false w => "uint" ++ int_width_repr w
  | Float NF32 => "float32"
  | Float NF64 => "float64"
  | Complex NF32 => "complex64"
  | Complex NF64 => "complex128"
  | PyObject => "pyobject"
  | NoneType => "none"
  | Array elt ndim layout =>
      "array(" ++ repr elt ++ ", " ++ ndim_repr ndim ++ ", "
               ++ array_layout_repr layout ++ ")"
  | LayoutType => "LayoutType"
  | MultiVector t => name t
  end.

(** What can be passed as the [dtype] argument of the constructor: an
    [np.dtype] instance, a scalar class such as [np.float64] (which is a
    type, not a dtype instance), a string, some other object of the heap,
    or [None]. *)
Inductive py_arg : Type :=
| ArgDtype (d : Numpy.dtype)
| ArgScalarClass (d : Numpy.dtype)
| ArgStr (s : string)
| ArgObject (a : N)
| ArgNone.

(** [isinstance(dtype, np.dtype)] *)
Definition isinstance_np_dtype (a : py_arg) : option Numpy.dtype :=
  match a with
  | ArgDtype d => Some d
  | _ => None
  end.

(** [MultiVectorType.__init__]:
<<
    assert isinstance(dtype, np.dtype)
    self.dtype = dtype
    super().__init__(name='MultiVector[{!r}]'.format(numba.from_dtype(dtype)))
>> *)
Definition MultiVectorType_init (a : py_arg) : pyres MultiVectorType :=
  match isinstance_np_dtype a with
  | None => Raise AssertionError
  | Some d =>
      t ← from_dtype d;
      mret {| dtype := d; name := "MultiVector[" ++ repr t ++ "]" |}
  end.

(** The [key] property: [return self.dtype]. *)
Definition key (self : MultiVectorType) : Numpy.dtype := dtype self.

(** [t[:]] on a framework type: a one-dimensional array of [t], any
    layout. *)
Definition getitem_slice (t : nb_type) : nb_type := Array t 1 LayoutA.

(** The [value_type] property: [return numba.from_dtype(self.dtype)[:]]. *)
Definition value_type (self : MultiVectorType) : pyres nb_type :=
  t ← from_dtype (dtype self);
  mret (getitem_slice t).

(** The [layout_type] property: [return LayoutType()]. *)
Definition layout_type (self : MultiVectorType) : nb_type := LayoutType.

(** Equality of framework types ([Type.__eq__]): the same class and
    equal keys.  The key of a [MultiVectorType] is its [key] property;
    an array's key is made of its element type, rank and layout. *)
Fixpoint type_eqb (t1 t2 : nb_type) : bool :=
  match t1, t2 with
  | Boolean, Boolean => true
  | Integer s1 w1, Integer s2 w2 => bool_decide (s1 = s2) && bool_decide (w1 = w2)
  | Float f1, Float f2 => bool_decide (f1 = f2)
  | Complex f1, Complex f2 => bool_decide (f1 = f2)
  | PyObject, PyObject => true
  | NoneType, NoneType => true
  | Array e1 n1 l1, Array e2 n2 l2 =>
      type_eqb e1 e2 && bool_decide (n1 = n2) && bool_decide (l1 = l2)
  | LayoutType, LayoutType => true
  | MultiVector a, MultiVector b => bool_decide (key a = key b)
  | _, _ => false
  end.

(** ** class MultiVectorModel(models.StructModel)
<<
    members = [
        ('layout', fe_type.layout_type),
        ('value', fe_type.value_type),
    ]
>> *)
Definition MultiVectorModel_members (fe_type : MultiVectorType)
  : pyres (list (string * nb_type)) :=
  let lt := layout_type fe_type in
  vt ← value_type fe_type;
  mret [("layout", lt); ("value", vt)].

(** ** type_MultiVector: the typer of the constructor call
<<
    def typer(layout, value):
        if isinstance(layout, LayoutType) and isinstance(value, types.Array):
            return MultiVectorType(_numpy_support.as_dtype(value.dtype))
>>
    A Python function that falls off its end returns [None]: no result
    type. *)
Definition typer (layout value : nb_type) : pyres (option nb_type) :=
  match layout, value with
  | LayoutType, Array elt _ _ =>
      d ← as_dtype elt;
      t ← MultiVectorType_init (ArgDtype d);
      mret (Some (MultiVector t))
  | _, _ => mret None
  end.

End Types.
Import Types.

(* ===================================================================== *)
(** ** The run-time state and the calls the lowered code makes *)
(* ===================================================================== *)

Module Runtime.

(** Addresses, and nullable pointers to host objects ([PyObject*]). *)
Definition addr : Type := N.
Definition ptr : Type := option addr.
Abbreviation NULL := (@None addr) (only parsing).

(** An [ndarray] object: element type, shape, strides and the address of
    its data buffer.  Two arrays with the same [nd_data] share storage. *)
Record ndarray : Type := mkNdarray {
  nd_dtype : Numpy.dtype;
  nd_shape : list Z;
  nd_strides : list Z;
  nd_data : addr
}.

(** What a host object is: an array, an instance of a class with its
    attribute dictionary (a [MultiVector], a [Layout], a numpy scalar with
    its [dtype], anything else), a class, or an [np.dtype] instance. *)
Inductive body : Type :=
| ONdarray (a : ndarray)
| OInstance (cls : string) (attrs : gmap string addr)
| OClass (cname : string)
| ODtype (d : Numpy.dtype).

Record pyobject : Type := mkPyobject {
  ob_refcnt : Z;
  ob_body : body
}.

(** The run-time state: host objects, data buffers (the raw bit patterns
    of the elements), the host error indicator, the reference counts of
    the native runtime's memory-info blocks, and the objects that
    serialized references resolve to.  Reference counts are tracked;
    reclamation at zero is the runtimes' business and is not modelled. *)
Record state : Type := mkState {
  heap : gmap addr pyobject;
  bufs : gmap addr (list Z);
  err : option exn;
  nrt : gmap addr Z;
  globals : gmap string addr
}.

Definition set_heap (f : gmap addr pyobject → gmap addr pyobject) (s : state) : state :=
  {| heap := f (heap s); bufs := bufs s; err := err s; nrt := nrt s;
     globals := globals s |}.

Definition set_err (e : option exn) (s : state) : state :=
  {| heap := heap s; bufs := bufs s; err := e; nrt := nrt s;
     globals := globals s |}.

Definition set_nrt (f : gmap addr Z → gmap addr Z) (s : state) : state :=
  {| heap := heap s; bufs := bufs s; err := err s; nrt := f (nrt s);
     globals := globals s |}.

(** Emitted code runs in a state and either finishes with a result and a
    new state, or its behaviour is undefined ([None]): it dereferenced a
    null or dangling pointer. *)
Definition M (A : Type) : Type := state → option (A * state).

#[global] Instance M_ret : MRet M := λ A a s, Some (a, s).

#[global] Instance M_bind : MBind M := λ A B k m s,
  match m s with
  | Some (a, s') => k a s'
  | None => None
  end.

Definition undefined {A} : M A := λ _, None.
Definition get : M state := λ s, Some (s, s).
Definition modify (f : state → state) : M unit := λ s, Some (tt, f s).

(** The object a non-null pointer points to. *)
Definition deref (a : addr) : M pyobject := λ s,
  match heap s !! a with
  | Some o => Some (o, s)
  | None => None
  end.

Definition add_refcnt (d : Z) (o : pyobject) : pyobject :=
  {| ob_refcnt := ob_refcnt o + d; ob_body := ob_body o |}.

(** ** c.pyapi *)

(** [Py_IncRef]/[Py_DecRef]: null is accepted and ignored. *)
Definition incref (p : ptr) : M unit :=
  match p with
  | None => mret tt
  | Some a => _ ← deref a; modify (set_heap (alter (add_refcnt 1) a))
  end.

Definition decref (p : ptr) : M unit :=
  match p with
  | None => mret tt
  | Some a => _ ← deref a; modify (set_heap (alter (add_refcnt (-1)) a))
  end.

Definition err_set (e : exn) : M unit := modify (set_err (Some e)).

(** [PyErr_Occurred]: the pending exception, or null. *)
Definition err_occurred : M (option exn) := s ← get; mret (err s).

(** [cgutils.is_not_null] *)
Definition is_not_null {A} (p : option A) : bool :=
  match p with Some _ => true | None => false end.

(** The attribute dictionary of an object.  The attributes that the
    interpreter provides for arrays and classes are not objects of the
    modelled heap; none of them is called [value] or [layout]. *)
Definition attrs_of (b : body) : gmap string addr :=
  match b with
  | OInstance _ attrs => attrs
  | ONdarray _ | OClass _ | ODtype _ => ∅
  end.

(** [PyObject_GetAttrString]: a new reference to the attribute; on a
    missing attribute [AttributeError] is set and null returned.  The
    object itself must not be null. *)
Definition object_getattr_string (obj : ptr) (attr : string) : M ptr :=
  match obj with
  | None => undefined
  | Some a =>
      o ← deref a;
      match attrs_of (ob_body o) !! attr with
      | Some v => _ ← incref (Some v); mret (Some v)
      | None => _ ← err_set AttributeError; mret None
      end
  end.

(** [serialize_object] embeds a pickled reference to a module-level
    object in the compiled code; here the reference is its name. *)
Definition serialize_object (qualname : string) : string := qualname.

(** [unserialize]: a new reference to the object, or null with an error
    set when it cannot be resolved. *)
Definition unserialize (pickled : string) : M ptr :=
  s ← get;
  match globals s !! pickled with
  | Some a => _ ← incref (Some a); mret (Some a)
  | None => _ ← err_set TypeError; mret None
  end.

(** ** Native values *)

(** The native array struct: memory-info block, the host object the
    array came from, element count and size, data pointer, shape and
    strides. *)
Record native_array : Type := mkNativeArray {
  meminfo : ptr;
  parent : ptr;
  nitems : Z;
  itemsize : Z;
  data : addr;
  shape : list Z;
  strides : list Z
}.

(** The compiled representation of a multivector: the struct the model
    [MultiVectorModel] lays out, a native layout value (an opaque
    pointer) and a native array. *)
Record MultiVectorStruct : Type := mkMultiVectorStruct {
  layout : ptr;
  value : native_array
}.

(** [NativeValue(value, is_error=...)] *)
Record NativeValue (A : Type) : Type := mkNativeValue {
  nv_value : A;
  is_error : bool
}.
Arguments mkNativeValue {A} _ _.
Arguments nv_value {A} _.
Arguments is_error {A} _.

(** A struct proxy created without a value is zero-filled. *)
Definition zero_array : native_array :=
  {| meminfo := None; parent := None; nitems := 0; itemsize := 0;
     data := 0%N; shape := []; strides := [] |}.

Definition create_struct_proxy : MultiVectorStruct :=
  {| layout := None; value := zero_array |}.

(** [mv.layout = x] and [mv.value = x] on a struct proxy. *)
Definition set_layout (x : ptr) (mv : MultiVectorStruct) : MultiVectorStruct :=
  {| layout := x; value := value mv |}.

Definition set_value (x : native_array) (mv : MultiVectorStruct) : MultiVectorStruct :=
  {| layout := layout mv; value := x |}.

(** ** The native runtime's reference counts *)

Definition nrt_add (d : Z) (mi : ptr) : M unit :=
  match mi with
  | None => mret tt
  | Some m => λ s,
      match nrt s !! m with
      | Some _ => Some (tt, set_nrt (alter (Z.add d) m) s)
      | None => None
      end
  end.

Definition nrt_incref : ptr → M unit := nrt_add 1.
Definition nrt_decref : ptr → M unit := nrt_add (-1).

(** A new memory-info block, with one reference. *)
Definition nrt_alloc : M addr := λ s,
  let m := fresh (dom (nrt s)) in
  Some (m, set_nrt (insert m 1%Z) s).

(** A new host object, with one reference. *)
Definition py_alloc (b : body) : M addr := λ s,
  let a := fresh (dom (heap s)) in
  Some (a, set_heap (insert a {| ob_refcnt := 1; ob_body := b |}) s).

(** The data-model interface of the framework: which memory-info
    blocks a native value of a given model holds.  An opaque pointer
    holds none, an array its own, a struct those of its members. *)
Class DataModel (A : Type) : Type := nrt_members : A → list ptr.

#[global] Instance opaque_model : DataModel ptr := λ _, [].
#[global] Instance array_model : DataModel native_array := λ a, [meminfo a].
#[global] Instance MultiVectorModel : DataModel MultiVectorStruct :=
  λ mv, (nrt_members (layout mv) ++ nrt_members (value mv))%list.

Fixpoint nrt_incref_all (l : list ptr) : M unit :=
  match l with
  | [] => mret tt
  | mi :: r => _ ← nrt_incref mi; nrt_incref_all r
  end.

(** [impl_ret_borrowed]: the implementation hands back a borrowed
    reference; it is turned into a new one by an incref. *)
Definition impl_ret_borrowed {A} `{DataModel A} (ret : A) : M A :=
  _ ← nrt_incref_all (nrt_members ret);
  mret ret.

(** ** The framework's array unboxer and boxer *)

Definition product (l : list Z) : Z := foldr Z.mul 1%Z l.

(** The itemsize the compiled type expects, when its element type has a
    dtype ("don't check types that can't be as_dtype()-ed"). *)
Definition expected_itemsize (elt : nb_type) : option Z :=
  match as_dtype elt with
  | Return d => Some (Numpy.itemsize d)
  | Raise _ => None
  end.

(** [unbox_array]: the adaptor fills the native struct from the array
    object (taking a reference to it for the memory-info block) and
    fails on an object that is not an array; the unboxer then checks the
    itemsize and, on either failure, sets [TypeError].  The adaptor
    dereferences its argument, and it writes as many shape and stride
    words as the object has dimensions into a struct sized for the rank
    of the compiled type: a null object or another rank is undefined. *)
Definition unbox_array (elt : nb_type) (ndim : nat) (obj : ptr)
  : M (NativeValue native_array) :=
  match obj with
  | None => undefined
  | Some a =>
      o ← deref a;
      match ob_body o with
      | ONdarray nd =>
          if bool_decide (length (nd_shape nd) = ndim) then
            _ ← incref obj;
            m ← nrt_alloc;
            let ary :=
              {| meminfo := Some m; parent := obj;
                 nitems := product (nd_shape nd);
                 itemsize := Numpy.itemsize (nd_dtype nd);
                 data := nd_data nd;
                 shape := nd_shape nd; strides := nd_strides nd |} in
            let itemsize_mismatch :=
              match expected_itemsize elt with
              | Some n => negb (itemsize ary =? n)%Z
              | None => false
              end in
            if itemsize_mismatch
            then _ ← err_set TypeError; mret (mkNativeValue ary true)
            else mret (mkNativeValue ary false)
          else undefined
      | OInstance _ _ | OClass _ | ODtype _ =>
          _ ← err_set TypeError;
          mret (mkNativeValue zero_array true)
      end
  end.

(** The parent object is handed back when it still describes the native
    array: the same data pointer, rank, dtype, shape and strides. *)
Definition same_array (nd : ndarray) (descr : Numpy.dtype) (ndim : nat)
    (a : native_array) : bool :=
  bool_decide (nd_data nd = data a)
  && bool_decide (length (nd_shape nd) = ndim)
  && bool_decide (nd_dtype nd = descr)
  && bool_decide (nd_shape nd = shape a)
  && bool_decide (nd_strides nd = strides a).

Definition try_to_return_parent (descr : Numpy.dtype) (ndim : nat)
    (a : native_array) : M ptr :=
  match parent a with
  | None => mret None
  | Some p =>
      o ← deref p;
      match ob_body o with
      | ONdarray nd =>
          if same_array nd descr ndim a
          then _ ← incref (Some p); mret (Some p)
          else mret None
      | OInstance _ _ | OClass _ | ODtype _ => mret None
      end
  end.

(** Otherwise a new array object is made over the same data; it keeps
    the memory-info block alive. *)
Definition nrt_adapt_ndarray_to_python (descr : Numpy.dtype) (ndim : nat)
    (a : native_array) : M ptr :=
  r ← try_to_return_parent descr ndim a;
  match r with
  | Some p => mret (Some p)
  | None =>
      _ ← nrt_incref (meminfo a);
      n ← py_alloc (ONdarray {| nd_dtype := descr; nd_shape := shape a;
                                nd_strides := strides a; nd_data := data a |});
      mret (Some n)
  end.

(** [box_array]: adapt, then give up the native reference. *)
Definition box_array (descr : Numpy.dtype) (ndim : nat) (a : native_array)
  : M ptr :=
  newary ← nrt_adapt_ndarray_to_python descr ndim a;
  _ ← nrt_decref (meminfo a);
  mret newary.

(** ** The layout's unboxer and boxer

    Modelled from the spec: [_layout.py] is not among the sources.  The
    algebra description crosses the boundary as "a reference to an
    algebra-description object", an opaque value: unboxing keeps the
    object pointer, boxing hands the same object back with a new
    reference. *)
Definition unbox_Layout (obj : ptr) : M (NativeValue ptr) :=
  mret (mkNativeValue obj false).

Definition box_Layout (val : ptr) : M ptr :=
  _ ← incref val;
  mret val.

(** ** The host class

    Modelled from the spec: the host class [MultiVector]
    ([clifford/_multivector.py]) is not among the sources.  A multivector
    is "represented as an algebra-description reference plus a
    coefficient array": the call [MultiVector(layout, value)] makes a
    new instance that holds the two references; any other number of
    arguments is a [TypeError]. *)
Definition MultiVector_call (args : list addr) : M ptr :=
  match args with
  | [l; v] =>
      _ ← incref (Some l);
      _ ← incref (Some v);
      a ← py_alloc (OInstance "MultiVector" {[ "layout" := l; "value" := v ]});
      mret (Some a)
  | _ => _ ← err_set TypeError; mret None
  end.

(** The argument list of [PyObject_CallFunctionObjArgs] is terminated by
    the first null. *)
Fixpoint objargs (args : list ptr) : list addr :=
  match args with
  | Some a :: r => a :: objargs r
  | _ => []
  end.

(** [call_function_objargs]: a null callable is reported as a
    [SystemError] unless an error is already pending.  The only callable
    of the model is the class [MultiVector]. *)
Definition call_function_objargs (callee : ptr) (args : list ptr) : M ptr :=
  match callee with
  | None =>
      e ← err_occurred;
      _ ← (if is_not_null e then mret tt else err_set SystemError);
      mret None
  | Some c =>
      o ← deref c;
      match ob_body o with
      | OClass cname =>
          if bool_decide (cname = "MultiVector")
          then MultiVector_call (objargs args)
          else _ ← err_set TypeError; mret None
      | ONdarray _ | OInstance _ _ | ODtype _ =>
          _ ← err_set TypeError; mret None
      end
  end.

End Runtime.
Import Runtime.

(* ===================================================================== *)
(** ** The registered functions of [_multivector.py] *)
(* ===================================================================== *)

Module Lowering.

(** Attribute access in host code: [obj.attr]. *)
Definition host_getattr (s : state) (obj : addr) (attr : string) : pyres addr :=
  match heap s !! obj with
  | Some o =>
      match attrs_of (ob_body o) !! attr with
      | Some v => Return v
      | None => Raise AttributeError
      end
  | None => Raise SystemError
  end.

(** [obj.dtype] in host code: the dtype of an array; for an instance (a
    numpy scalar, or any object with such an attribute), what its [dtype]
    attribute holds, which is a numpy dtype when it refers to an
    [np.dtype] instance. *)
Definition host_dtype (s : state) (obj : addr) : pyres py_arg :=
  match heap s !! obj with
  | Some o =>
      match ob_body o with
      | ONdarray nd => Return (ArgDtype (nd_dtype nd))
      | OInstance _ attrs =>
          match (attrs !! "dtype" : option addr) with
          | Some v =>
              match heap s !! v with
              | Some ov =>
                  match ob_body ov with
                  | ODtype d => Return (ArgDtype d)
                  | ONdarray _ | OInstance _ _ | OClass _ =>
                      Return (ArgObject v)
                  end
              | None => Raise SystemError
              end
          | None => Raise AttributeError
          end
      | OClass _ | ODtype _ => Raise AttributeError
      end
  | None => Raise SystemError
  end.

(** [_typeof_MultiVector]:
<<
    return MultiVectorType(dtype=val.value.dtype)
>> *)
Definition _typeof_MultiVector (s : state) (val : addr) : pyres MultiVectorType :=
  v ← host_getattr s val "value";
  d ← host_dtype s v;
  MultiVectorType_init d.

(** *** The machine types of the members

    What a struct proxy checks when a member is stored: the machine
    type of the value against that of the member.  Signed and unsigned
    integers share a machine type; a complex number is a pair; an array
    struct depends on the element's machine type and on the rank. *)
Inductive ll_type : Type :=
| LLInt (bits : N)
| LLFloat
| LLDouble
| LLPair (a b : ll_type)
| LLVoidPtr
| LLArray (elt : ll_type) (ndim : nat).

#[global] Instance ll_type_eq_dec : EqDecision ll_type.
Proof. solve_decision. Defined.

Definition int_bits (w : int_width) : N :=
  match w with W8 => 8 | W16 => 16 | W32 => 32 | W64 => 64 end%N.

Definition float_type (f : nb_fwidth) : ll_type :=
  match f with NF32 => LLFloat | NF64 => LLDouble end.

(** The machine type of a value that is stored in a member of the
    struct; a struct within the struct does not occur. *)
Fixpoint member_data_type (t : nb_type) : pyres ll_type :=
  match t with
  | Boolean => Return (LLInt 8)
  | Integer _ w => Return (LLInt (int_bits w))
  | Float f => Return (float_type f)
  | Complex f => Return (LLPair (float_type f) (float_type f))
  | PyObject | NoneType | LayoutType => Return LLVoidPtr
  | Array elt ndim _ => e ← member_data_type elt; mret (LLArray e ndim)
  | MultiVector _ => Raise NotImplementedError
  end.

(** [mv.member = x] on a struct proxy is refused ("Invalid store") when
    the machine types differ. *)
Definition check_store (member_type value_type : nb_type) : pyres unit :=
  m ← member_data_type member_type;
  v ← member_data_type value_type;
  if bool_decide (m = v) then mret tt else Raise TypeError.

(** A call signature: the result type and the argument types. *)
Record signature : Type := mkSignature {
  return_type : nb_type;
  args : list nb_type
}.

(** [cgutils.create_struct_proxy(typ)]: the struct model registered for
    the type, with its members. *)
Definition struct_model (typ : nb_type) : pyres (list (string * nb_type)) :=
  match typ with
  | MultiVector t => MultiVectorModel_members t
  | _ => Raise TypeError
  end.

(** The type of a member of a struct model, by name. *)
Definition get_member_fe_type (members : list (string * nb_type))
    (member : string) : pyres nb_type :=
  match list_find (λ m, bool_decide (m.1 = member)) members with
  | Some (_, (_, t)) => Return t
  | None => Raise TypeError
  end.

(** ** impl_MultiVector: the lowering of the constructor call
<<
    @numba.extending.lower_builtin(MultiVector, LayoutType, types.Any)
    def impl_MultiVector(context, builder, sig, args):
        typ = sig.return_type
        layout, value = args
        mv = cgutils.create_struct_proxy(typ)(context, builder)
        mv.layout = layout
        mv.value = value
        return impl_ret_borrowed(context, builder, sig.return_type, mv._getvalue())
>>
    The function runs when the call is compiled; what it returns is the
    code that runs for the call. *)
Definition impl_MultiVector (sig : signature)
  : pyres (ptr * native_array → M MultiVectorStruct) :=
  let typ := return_type sig in
  members ← struct_model typ;
  match args sig with
  | [layout_ty; value_ty] =>
      lt ← get_member_fe_type members "layout";
      _ ← check_store lt layout_ty;
      vt ← get_member_fe_type members "value";
      _ ← check_store vt value_ty;
      mret (λ '(layout, value),
        let mv := create_struct_proxy in
        let mv := set_layout layout mv in
        let mv := set_value value mv in
        impl_ret_borrowed mv)
  | _ => Raise TypeError
  end.

(** [c.unbox(typ, obj)] and [c.box(typ, val)]: the converter registered
    for the class of [typ], chosen when the code is generated. *)
Definition c_unbox_layout (typ : nb_type) : pyres (ptr → M (NativeValue ptr)) :=
  match typ with
  | LayoutType => Return unbox_Layout
  | _ => Raise NotImplementedError
  end.

Definition c_unbox_array (typ : nb_type)
  : pyres (ptr → M (NativeValue native_array)) :=
  match typ with
  | Array elt ndim _ => Return (unbox_array elt ndim)
  | _ => Raise NotImplementedError
  end.

Definition c_box_layout (typ : nb_type) : pyres (ptr → M ptr) :=
  match typ with
  | LayoutType => Return box_Layout
  | _ => Raise NotImplementedError
  end.

Definition c_box_array (typ : nb_type) : pyres (native_array → M ptr) :=
  match typ with
  | Array elt ndim _ => descr ← as_dtype elt; mret (box_array descr ndim)
  | _ => Raise NotImplementedError
  end.

(** ** unbox_MultiVector
<<
    value = c.pyapi.object_getattr_string(obj, "value")
    layout = c.pyapi.object_getattr_string(obj, "layout")
    mv = cgutils.create_struct_proxy(typ)(c.context, c.builder)
    mv.layout = c.unbox(typ.layout_type, layout).value
    mv.value = c.unbox(typ.value_type, value).value
    c.pyapi.decref(value)
    c.pyapi.decref(layout)
    is_error = cgutils.is_not_null(c.builder, c.pyapi.err_occurred())
    return NativeValue(mv._getvalue(), is_error=is_error)
>> *)
Definition unbox_MultiVector (typ : MultiVectorType)
  : pyres (ptr → M (NativeValue MultiVectorStruct)) :=
  unbox_layout ← c_unbox_layout (layout_type typ);
  vt ← value_type typ;
  unbox_value ← c_unbox_array vt;
  mret (λ obj,
    value ← object_getattr_string obj "value";
    layout ← object_getattr_string obj "layout";
    let mv := create_struct_proxy in
    l ← unbox_layout layout;
    let mv := set_layout (nv_value l) mv in
    v ← unbox_value value;
    let mv := set_value (nv_value v) mv in
    _ ← decref value;
    _ ← decref layout;
    e ← err_occurred;
    let is_error := is_not_null e in
    mret (mkNativeValue mv is_error)).

(** ** box_MultiVector
<<
    mv = cgutils.create_struct_proxy(typ)(c.context, c.builder, value=val)
    mv_obj = c.box(typ.value_type, mv.value)
    layout_obj = c.box(typ.layout_type, mv.layout)
    class_obj = c.pyapi.unserialize(c.pyapi.serialize_object(MultiVector))
    res = c.pyapi.call_function_objargs(class_obj, (layout_obj, mv_obj))
    c.pyapi.decref(mv_obj)
    c.pyapi.decref(class_obj)
    c.pyapi.decref(layout_obj)
    return res
>> *)
Definition box_MultiVector (typ : MultiVectorType)
  : pyres (MultiVectorStruct → M ptr) :=
  vt ← value_type typ;
  box_value ← c_box_array vt;
  box_layout ← c_box_layout (layout_type typ);
  mret (λ val,
    let mv := val in
    mv_obj ← box_value (value mv);
    layout_obj ← box_layout (layout mv);
    class_obj ← unserialize (serialize_object "MultiVector");
    res ← call_function_objargs class_obj [layout_obj; mv_obj];
    _ ← decref mv_obj;
    _ ← decref class_obj;
    _ ← decref layout_obj;
    mret res).

(** ** The attribute wrappers
<<
    numba.extending.make_attribute_wrapper(MultiVectorType, 'value', 'value')
    numba.extending.make_attribute_wrapper(MultiVectorType, 'layout', 'layout')
>>
    [make_attribute_wrapper(typeclass, struct_attr, python_attr)] makes
    the member [struct_attr] of the struct readable in compiled code as
    the attribute [python_attr]: it registers a typing rule and a
    lowering for that attribute name. *)
Record attribute_wrapper : Type := make_attribute_wrapper {
  struct_attr : string;
  python_attr : string
}.

Definition attribute_wrappers : list attribute_wrapper :=
  [ make_attribute_wrapper "value" "value";
    make_attribute_wrapper "layout" "layout" ].

Definition find_wrapper (attr : string) : option attribute_wrapper :=
  snd <$> list_find (λ w, bool_decide (python_attr w = attr)) attribute_wrappers.

(** Typing of [mv.attr]: the member's type, or no type when no wrapper
    is registered for the name. *)
Definition resolve_getattr (typ : MultiVectorType) (attr : string)
  : pyres (option nb_type) :=
  match find_wrapper attr with
  | Some w =>
      members ← MultiVectorModel_members typ;
      t ← get_member_fe_type members (struct_attr w);
      mret (Some t)
  | None => mret None
  end.

(** The value of a member: a native layout or a native array. *)
Inductive member_value : Type :=
| MLayout (p : ptr)
| MArray (a : native_array).

#[global] Instance member_model : DataModel member_value := λ m,
  match m with
  | MLayout p => nrt_members p
  | MArray a => nrt_members a
  end.

(** [getattr(val, struct_attr)] on a struct proxy. *)
Definition proxy_getattr (member : string)
  : pyres (MultiVectorStruct → member_value) :=
  if bool_decide (member = "layout") then Return (λ mv, MLayout (layout mv))
  else if bool_decide (member = "value") then Return (λ mv, MArray (value mv))
  else Raise AttributeError.

(** Lowering of [mv.attr]: read the member, return it borrowed. *)
Definition struct_getattr_impl (w : attribute_wrapper) (typ : MultiVectorType)
  : pyres (MultiVectorStruct → M member_value) :=
  members ← MultiVectorModel_members typ;
  attrty ← get_member_fe_type members (struct_attr w);
  read ← proxy_getattr (struct_attr w);
  mret (λ val, impl_ret_borrowed (read val)).

Definition lower_getattr (typ : MultiVectorType) (attr : string)
  : pyres (option (MultiVectorStruct → M member_value)) :=
  match find_wrapper attr with
  | Some w => f ← struct_getattr_impl w typ; mret (Some f)
  | None => mret None
  end.

End Lowering.
Import Lowering.

(* ===================================================================== *)
(** ** Observations on host objects *)
(* ===================================================================== *)

Module Observe.

(** The bodies of the host objects, without their reference counts. *)
Definition bodies (s : state) : gmap addr body := ob_body <$> heap s.

(** The coefficient array of a host multivector: the array object its
    [value] attribute refers to. *)
Definition host_value (s : state) (mv : addr) : option ndarray :=
  b ← bodies s !! mv;
  a ← attrs_of b !! "value";
  b' ← bodies s !! a;
  match b' with
  | ONdarray nd => Some nd
  | OInstance _ _ | OClass _ | ODtype _ => None
  end.

(** The algebra description of a host multivector: the object its
    [layout] attribute refers to. *)
Definition host_layout (s : state) (mv : addr) : option addr :=
  b ← bodies s !! mv;
  attrs_of b !! "layout".


(** The numpy dtype that [val.value.dtype] evaluates to in host code,
    when it is one: the dtype of the array when [value] is an array, and
    for an instance the [np.dtype] object its [dtype] attribute refers
    to. *)
Definition value_dtype (s : state) (mv : addr) : option Numpy.dtype :=
  b ← bodies s !! mv;
  a ← attrs_of b !! "value";
  b' ← bodies s !! a;
  match b' with
  | ONdarray nd => Some (nd_dtype nd)
  | OInstance _ attrs =>
      v ← attrs !! "dtype";
      bv ← bodies s !! v;
      match bv with
      | ODtype d => Some d
      | ONdarray _ | OInstance _ _ | OClass _ => None
      end
  | OClass _ | ODtype _ => None
  end.




End Observe.
Import Observe.

(* ===================================================================== *)
(** ** A concrete world *)
(* ===================================================================== *)

Module Example.

Definition cls_addr : addr := 1%N.
Definition layout_addr : addr := 2%N.
Definition arr_addr : addr := 3%N.
Definition e1_addr : addr := 4%N.
Definition layout2_addr : addr := 5%N.
Definition arr2_addr : addr := 6%N.
Definition other_addr : addr := 7%N.
Definition bare_addr : addr := 8%N.
Definition blank_addr : addr := 9%N.
Definition buf_addr : addr := 100%N.
Definition buf2_addr : addr := 132%N.

(** The coefficients of a basis vector of a two-dimensional algebra, as
    the bit patterns of the doubles 0, 1, 0, 0; and those of another. *)
Definition e1_bits : list Z := [0; 4607182418800017408; 0; 0]%Z.
Definition e2_bits : list Z := [0; 0; 4607182418800017408]%Z.

Definition e1_array : ndarray :=
  {| nd_dtype := dt_float F64; nd_shape := [4%Z]; nd_strides := [8%Z];
     nd_data := buf_addr |}.

Definition e2_array : ndarray :=
  {| nd_dtype := dt_float F64; nd_shape := [3%Z]; nd_strides := [8%Z];
     nd_data := buf2_addr |}.

(** A world with the class, two algebra descriptions, a multivector of
    the first ([e1_addr]), a multivector of the second ([other_addr]),
    an instance that has a coefficient array but no layout
    ([bare_addr]), and an instance without attributes ([blank_addr]). *)
Definition world : state :=
  {| heap := {[ cls_addr := mkPyobject 1 (OClass "MultiVector");
                layout_addr := mkPyobject 2 (OInstance "Layout" ∅);
                arr_addr := mkPyobject 1 (ONdarray e1_array);
                e1_addr := mkPyobject 1
                  (OInstance "MultiVector"
                     {[ "layout" := layout_addr; "value" := arr_addr ]});
                layout2_addr := mkPyobject 2 (OInstance "Layout" ∅);
                arr2_addr := mkPyobject 2 (ONdarray e2_array);
                other_addr := mkPyobject 1
                  (OInstance "MultiVector"
                     {[ "layout" := layout2_addr; "value" := arr2_addr ]});
                bare_addr := mkPyobject 1
                  (OInstance "MultiVector" {[ "value" := arr2_addr ]});
                blank_addr := mkPyobject 1 (OInstance "MultiVector" ∅) ]};
     bufs := {[ buf_addr := e1_bits; buf2_addr := e2_bits ]};
     err := None;
     nrt := ∅;
     globals := {[ "MultiVector" := cls_addr ]} |}.

Definition float64_mv : MultiVectorType :=
  {| dtype := dt_float F64; name := "MultiVector[float64]" |}.

End Example.


(* ===================================================================== *)
(** ** A world with a malformed multivector *)
(* ===================================================================== *)

Module Edge.

Definition matrix_addr : addr := 1%N.
Definition layout_addr : addr := 2%N.
Definition mv_addr : addr := 3%N.

(** A two-by-two array of doubles. *)
Definition matrix : ndarray :=
  {| nd_dtype := dt_float F64; nd_shape := [2%Z; 2%Z];
     nd_strides := [16%Z; 8%Z]; nd_data := 200%N |}.

(** An instance of the host class whose [value] was replaced by the
    matrix after construction. *)
Definition world : state :=
  {| heap := {[ matrix_addr := mkPyobject 1 (ONdarray matrix);
                layout_addr := mkPyobject 1 (OInstance "Layout" ∅);
                mv_addr := mkPyobject 1
                  (OInstance "MultiVector"
                     {[ "layout" := layout_addr; "value" := matrix_addr ]}) ]};
     bufs := {[ 200%N := [0; 0; 0; 0]%Z ]};
     err := None;
     nrt := ∅;
     globals := ∅ |}.

(** A multivector of extended precision: a well-formed instance of the
    host class whose coefficient array has the dtype [float128]. *)
Definition wide_array : ndarray :=
  {| nd_dtype := dt_float FLong; nd_shape := [4%Z]; nd_strides := [16%Z];
     nd_data := 300%N |}.

Definition wide_cls_addr : addr := 1%N.
Definition wide_layout_addr : addr := 2%N.
Definition wide_arr_addr : addr := 3%N.
Definition wide_mv_addr : addr := 4%N.

Definition wide_world : state :=
  {| heap := {[ wide_cls_addr := mkPyobject 1 (OClass "MultiVector");
                wide_layout_addr := mkPyobject 2 (OInstance "Layout" ∅);
                wide_arr_addr := mkPyobject 1 (ONdarray wide_array);
                wide_mv_addr := mkPyobject 1
                  (OInstance "MultiVector"
                     {[ "layout" := wide_layout_addr;
                        "value" := wide_arr_addr ]}) ]};
     bufs := {[ 300%N := [0; 1; 0; 0]%Z ]};
     err := None;
     nrt := ∅;
     globals := {[ "MultiVector" := wide_cls_addr ]} |}.

(** An instance of the host class whose [value] was replaced by a numpy
    scalar, [np.float64(1.0)]: not an array, but it has a [dtype]. *)
Definition f64_dtype_addr : addr := 1%N.
Definition scalar_addr : addr := 2%N.
Definition scalar_layout_addr : addr := 3%N.
Definition scalar_mv_addr : addr := 4%N.

Definition scalar_world : state :=
  {| heap := {[ f64_dtype_addr := mkPyobject 5 (ODtype (dt_float F64));
                scalar_addr := mkPyobject 1
                  (OInstance "float64" {[ "dtype" := f64_dtype_addr ]});
                scalar_layout_addr := mkPyobject 1 (OInstance "Layout" ∅);
                scalar_mv_addr := mkPyobject 1
                  (OInstance "MultiVector"
                     {[ "layout" := scalar_layout_addr;
                        "value" := scalar_addr ]}) ]};
     bufs := ∅;
     err := None;
     nrt := ∅;
     globals := ∅ |}.

End Edge.

(* ===================================================================== *)
(** ** Reasoning about emitted code *)
(* ===================================================================== *)

Module Logic.

(** [wp m s Q]: run in [s], the code [m] finishes, with a result and a
    state that satisfy [Q]. *)
Definition wp {A} (m : M A) (s : state) (Q : A → state → Prop) : Prop :=
  ∃ a s', m s = Some (a, s') ∧ Q a s'.

(** The memory-info blocks a native value refers to are allocated. *)
Definition nrt_valid (s : state) (mi : ptr) : Prop :=
  match mi with
  | None => True
  | Some m => is_Some (nrt s !! m)
  end.

(** From [s] to [s'] host objects were only added (and reference
    counts changed): every object of [s] is in [s'] with the same body,
    and buffers and globals are the same. *)
Definition grows (s s' : state) : Prop :=
  bodies s ⊆ bodies s' ∧ bufs s' = bufs s ∧ globals s' = globals s.

(** The host object a native array came from, if any, is alive. *)
Definition parent_live (s : state) (a : native_array) : Prop :=
  match parent a with
  | Some p => is_Some (bodies s !! p)
  | None => True
  end.

(** [o] is an array object over the data of the native array [a], with
    its shape and strides and the dtype [descr]. *)
Definition array_object_of (s : state) (o : addr) (descr : Numpy.dtype)
    (a : native_array) : Prop :=
  ∃ nd, bodies s !! o = Some (ONdarray nd)
        ∧ nd_dtype nd = descr ∧ nd_data nd = data a
        ∧ nd_shape nd = shape a ∧ nd_strides nd = strides a.

(** What boxing the native array [a] promises, whichever way it goes:
    an array object over the data of [a]; objects were only added. *)
Definition boxed_array (s : state) (descr : Numpy.dtype) (a : native_array)
    (r : ptr) (s' : state) : Prop :=
  ∃ o, r = Some o ∧ array_object_of s' o descr a
       ∧ grows s s' ∧ err s' = err s ∧ dom (nrt s') = dom (nrt s).

(** What boxing the struct [val] promises: a new instance of the host
    class whose [layout] is the object [l] and whose [value] is an array
    object over the data of the struct's array. *)
Definition boxed_MultiVector (s : state) (descr : Numpy.dtype) (l : addr)
    (val : MultiVectorStruct) (r : ptr) (s' : state) : Prop :=
  ∃ o mv_obj,
    r = Some o ∧ bodies s !! o = None
    ∧ bodies s' !! o
      = Some (OInstance "MultiVector" {[ "layout" := l; "value" := mv_obj ]})
    ∧ array_object_of s' mv_obj descr (value val)
    ∧ grows s s' ∧ err s' = err s.

(** The class object is where the serialized reference resolves to. *)
Definition class_registered (s : state) : Prop :=
  ∃ c, globals s !! "MultiVector" = Some c
       ∧ bodies s !! c = Some (OClass "MultiVector").

(** The code [box_MultiVector] generates for a type whose dtype the
    framework supports, with the converters of the two members spelled
    out ([box_MultiVector_code] below). *)
Definition box_code (T : MultiVectorType) (val : MultiVectorStruct) : M ptr :=
  mv_obj ← box_array (dtype T) 1 (value val);
  layout_obj ← box_Layout (layout val);
  class_obj ← unserialize (serialize_object "MultiVector");
  res ← call_function_objargs class_obj [layout_obj; mv_obj];
  _ ← decref mv_obj;
  _ ← decref class_obj;
  _ ← decref layout_obj;
  mret res.

(** The code [unbox_MultiVector] generates for a type whose dtype maps
    to the element type [elt] ([unbox_MultiVector_code] below). *)
Definition unbox_code (elt : nb_type) (obj : ptr)
  : M (NativeValue MultiVectorStruct) :=
  value ← object_getattr_string obj "value";
  layout ← object_getattr_string obj "layout";
  l ← unbox_Layout layout;
  v ← unbox_array elt 1 value;
  _ ← decref value;
  _ ← decref layout;
  e ← err_occurred;
  mret (mkNativeValue {| layout := nv_value l; value := nv_value v |}
                      (is_not_null e)).

(** The native array that unboxing makes of the array object [a]. *)
Definition native_of (a : addr) (nd : ndarray) (m : addr) : native_array :=
  {| meminfo := Some m; parent := Some a;
     nitems := product (nd_shape nd);
     itemsize := Numpy.itemsize (nd_dtype nd);
     data := nd_data nd;
     shape := nd_shape nd; strides := nd_strides nd |}.

(** Passing a host object as an argument of a compiled function: the
    dispatcher computes the object's type in host code, then runs the
    unboxer generated for that type. *)
Inductive crossing : Type :=
| TypingError (e : exn)
| Unboxed (nv : NativeValue MultiVectorStruct) (s' : state)
| Undefined.

Definition pass_argument (s : state) (obj : addr) : crossing :=
  match _typeof_MultiVector s obj with
  | Raise e => TypingError e
  | Return typ =>
      match unbox_MultiVector typ with
      | Raise e => TypingError e
      | Return code =>
          match code (Some obj) s with
          | Some (nv, s') => Unboxed nv s'
          | None => Undefined
          end
      end
  end.

(** Fetching the attribute [attr] of [obj] fails: there is none. *)
Definition fetch_fails (s : state) (obj : addr) (attr : string) : bool :=
  match bodies s !! obj with
  | Some b => bool_decide (attrs_of b !! attr = None)
  | None => false
  end.

(** The item size check of the array unboxer: the array's item size
    against the one of the compiled element type, when it has one. *)
Definition itemsize_mismatch (elt : nb_type) (nd : ndarray) : bool :=
  match expected_itemsize elt with
  | Some n => negb (Numpy.itemsize (nd_dtype nd) =? n)%Z
  | None => false
  end.

(** Converting the body of the fetched [value] to a native array of the
    element type [elt] fails: it is not an array, or its item size is
    not the expected one. *)
Definition conversion_fails (elt : nb_type) (b : body) : bool :=
  match b with
  | ONdarray nd => itemsize_mismatch elt nd
  | OInstance _ _ | OClass _ | ODtype _ => true
  end.

Definition convert_fails (s : state) (obj : addr) (elt : nb_type) : bool :=
  match bodies s !! obj with
  | Some b =>
      match attrs_of b !! "value" with
      | Some a =>
          match bodies s !! a with
          | Some ba => conversion_fails elt ba
          | None => false
          end
      | None => false
      end
  | None => false
  end.

(** The reference count of a host object; an address that holds no
    object counts as zero. *)
Definition refcount (s : state) (x : addr) : Z :=
  from_option ob_refcnt 0%Z (heap s !! x).

(** [one_if P]: one when [P] holds, else zero. *)
Definition one_if (P : Prop) `{Decision P} : Z := if decide P then 1%Z else 0%Z.

(** The state in which the unboxer leaves [s], for an object whose
    [value] is the array object [a] and whose [layout] attribute is [lay]
    (none when the object has no such attribute); [m] is the memory-info
    block made for the array. *)
Definition unboxed_state (s : state) (a : addr) (lay : ptr) (m : addr) : state :=
  let s1 := set_heap (alter (add_refcnt 1) a) s in
  let s2 := match lay with
            | Some l => set_heap (alter (add_refcnt 1) l) s1
            | None => set_err (Some AttributeError) s1
            end in
  let s3 := set_nrt (insert m 1%Z) (set_heap (alter (add_refcnt 1) a) s2) in
  let s4 := set_heap (alter (add_refcnt (-1)) a) s3 in
  match lay with
  | Some l => set_heap (alter (add_refcnt (-1)) l) s4
  | None => s4
  end.

(** Boxing an array takes one reference to the array object it returns. *)
Definition counted_array (s : state) (r : ptr) (s' : state) : Prop :=
  ∃ o, r = Some o
       ∧ (∀ x, refcount s' x = (refcount s x + one_if (x = o))%Z)
       ∧ dom (nrt s') = dom (nrt s).

(** What boxing the struct does to the reference counts: the new
    instance [o] has the reference that is returned, and holds one on the
    layout [l] and one on the array object [mv_obj]. *)
Definition counted_MultiVector (s : state) (l : addr) (r : ptr) (s' : state)
  : Prop :=
  ∃ o mv_obj,
    r = Some o
    ∧ bodies s' !! o
      = Some (OInstance "MultiVector" {[ "layout" := l; "value" := mv_obj ]})
    ∧ ∀ x, refcount s' x
           = (refcount s x + one_if (x = l) + one_if (x = mv_obj)
              + one_if (x = o))%Z.

End Logic.
Import Logic.

(* ===================================================================== *)
(** ** Facts about the types *)
(* ===================================================================== *)

Section TypeFacts.

(** [as_dtype] undoes [from_dtype]. *)
Lemma as_dtype_from_dtype (d : Numpy.dtype) (t : nb_type) :
  from_dtype d = Return t → as_dtype t = Return d.
Proof.
  destruct d as [ | w | w | f | f | ]; try destruct f; simpl;
    intros H; inversion H; reflexivity.
Qed.

(** The framework supports every modelled dtype except extended
    precision. *)
Lemma from_dtype_returns (d : Numpy.dtype) :
  (∃ t, from_dtype d = Return t) ↔ d ≠ dt_float FLong ∧ d ≠ dt_complex FLong.
Proof.
  split.
  - intros [t H]. split; intros ->; discriminate H.
  - intros [H1 H2].
    destruct d as [ | w | w | f | f | ]; try destruct f; simpl; eauto;
      congruence.
Qed.

Lemma from_dtype_raises (d : Numpy.dtype) (e : exn) :
  from_dtype d = Raise e → e = NotImplementedError.
Proof.
  destruct d as [ | w | w | f | f | ]; try destruct f; simpl;
    intros H; inversion H; reflexivity.
Qed.

(** A constructed type holds the dtype it was given. *)
Lemma MultiVectorType_init_inv (a : py_arg) (T : MultiVectorType) :
  MultiVectorType_init a = Return T →
  a = ArgDtype (dtype T) ∧
  ∃ t, from_dtype (dtype T) = Return t ∧ name T = "MultiVector[" ++ repr t ++ "]".
Proof.
  unfold MultiVectorType_init.
  destruct a as [d | d | x | x | ]; simpl; try discriminate.
  destruct (from_dtype d) as [t | e] eqn:Hd; simpl; [ | discriminate ].
  intros H. inversion H; subst; simpl. eauto.
Qed.

Lemma value_type_of_dtype (T : MultiVectorType) (t : nb_type) :
  from_dtype (dtype T) = Return t → value_type T = Return (Array t 1 LayoutA).
Proof. unfold value_type. intros ->. reflexivity. Qed.

Lemma members_of_dtype (T : MultiVectorType) (t : nb_type) :
  from_dtype (dtype T) = Return t →
  MultiVectorModel_members T =
    Return [("layout", LayoutType); ("value", Array t 1 LayoutA)].
Proof.
  intros H. unfold MultiVectorModel_members.
  rewrite (value_type_of_dtype _ _ H). reflexivity.
Qed.

End TypeFacts.

(** C10, as stated, fails: the constructor calls [numba.from_dtype] on its
    argument, and that call raises for a numpy dtype the framework does not
    support; extended precision ([np.dtype('float128')]) is one. *)
Lemma MultiVectorType_init_longdouble_raises :
  ¬ (∀ d : Numpy.dtype, ∃ T, MultiVectorType_init (ArgDtype d) = Return T)
  ∧ MultiVectorType_init (ArgDtype (dt_float FLong)) = Raise NotImplementedError.
Proof.
  split; [ | reflexivity ].
  intros H. destruct (H (dt_float FLong)) as [T HT]. discriminate HT.
Qed.

(** C10 (amended): the constructor asserts that its argument is a numpy
    dtype.  For every numpy dtype that the framework supports (one
    [numba.from_dtype] returns a type for) the construction succeeds, the
    instance holds that dtype and is named [MultiVector[...]] after the
    framework's type for it; for a numpy dtype the framework does not
    support no type is produced and [NotImplementedError] is raised; for an
    argument that is not a dtype instance the assertion fails. *)
Theorem MultiVectorType_init_checked (a : py_arg) :
  (∀ d t, a = ArgDtype d → from_dtype d = Return t →
     MultiVectorType_init a =
       Return {| dtype := d; name := "MultiVector[" ++ repr t ++ "]" |})
  ∧ (∀ d, a = ArgDtype d → (∀ t, from_dtype d ≠ Return t) →
     MultiVectorType_init a = Raise NotImplementedError)
  ∧ ((∀ d, a ≠ ArgDtype d) → MultiVectorType_init a = Raise AssertionError).
Proof.
  repeat split.
  - intros d t -> H. unfold MultiVectorType_init. simpl. rewrite H. reflexivity.
  - intros d -> H. unfold MultiVectorType_init. simpl.
    destruct (from_dtype d) as [t | e] eqn:Hd.
    + destruct (H t). reflexivity.
    + simpl. rewrite (from_dtype_raises _ _ Hd). reflexivity.
  - intros H. destruct a as [d | d | x | x | ]; try reflexivity.
    destruct (H d). reflexivity.
Qed.

Lemma MultiVectorType_init_checked_witness :
  MultiVectorType_init (ArgDtype (dt_float F64)) =
    Return {| dtype := dt_float F64; name := "MultiVector[float64]" |}
  ∧ MultiVectorType_init (ArgDtype (dt_complex FLong)) = Raise NotImplementedError
  ∧ MultiVectorType_init (ArgScalarClass (dt_float F64)) = Raise AssertionError.
Proof.
  split; [ | split ].
  - apply (proj1 (MultiVectorType_init_checked (ArgDtype (dt_float F64)))
             (dt_float F64) (Float NF64)); reflexivity.
  - apply (proj1 (proj2 (MultiVectorType_init_checked (ArgDtype (dt_complex FLong))))
             (dt_complex FLong)); [ reflexivity | intros t; discriminate ].
  - apply (proj2 (proj2 (MultiVectorType_init_checked (ArgScalarClass (dt_float F64))))).
    intros d; discriminate.
Defined.

Section StateFacts.

Implicit Types (s : state) (a : addr) (p : ptr).

Lemma bodies_lookup s a b :
  bodies s !! a = Some b ↔ ∃ o, heap s !! a = Some o ∧ ob_body o = b.
Proof.
  unfold bodies. rewrite lookup_fmap. destruct (heap s !! a) as [o | ]; simpl.
  - split; [ intros H; inversion H; eauto | intros (o' & H & <-); congruence ].
  - split; [ discriminate | intros (o' & H & _); discriminate ].
Qed.

Lemma bodies_lookup_None s a : bodies s !! a = None ↔ heap s !! a = None.
Proof. unfold bodies. rewrite lookup_fmap. apply fmap_None. Qed.

(** Changing a reference count changes no body. *)
Lemma bodies_add_refcnt (d : Z) a s :
  bodies (set_heap (alter (add_refcnt d) a) s) = bodies s.
Proof.
  unfold bodies; simpl. apply map_eq; intros i.
  rewrite !lookup_fmap, lookup_alter. case_decide as E; [ subst i | reflexivity ].
  destruct (heap s !! a); reflexivity.
Qed.

Lemma bodies_alloc a (b : body) s :
  bodies (set_heap (insert a {| ob_refcnt := 1; ob_body := b |}) s)
  = <[a := b]> (bodies s).
Proof. unfold bodies; simpl. apply fmap_insert. Qed.

Lemma bodies_set_err e s : bodies (set_err e s) = bodies s.
Proof. reflexivity. Qed.

Lemma bodies_set_nrt f s : bodies (set_nrt f s) = bodies s.
Proof. reflexivity. Qed.

Lemma fresh_bodies s : bodies s !! fresh (dom (heap s)) = None.
Proof.
  apply bodies_lookup_None, not_elem_of_dom, is_fresh.
Qed.

Lemma grows_refl s : grows s s.
Proof. split; [ reflexivity | split; reflexivity ]. Qed.

Lemma grows_trans s1 s2 s3 : grows s1 s2 → grows s2 s3 → grows s1 s3.
Proof.
  intros (H1 & ? & ?) (H2 & ? & ?). repeat split; try congruence.
  etrans; eassumption.
Qed.

Lemma grows_lookup s s' a b :
  grows s s' → bodies s !! a = Some b → bodies s' !! a = Some b.
Proof. intros (H & _) Hb. eapply lookup_weaken; eassumption. Qed.

Lemma grows_live s s' a :
  grows s s' → is_Some (bodies s !! a) → is_Some (bodies s' !! a).
Proof. intros H [b Hb]. exists b. eapply grows_lookup; eassumption. Qed.

Lemma grows_fresh s s' a :
  grows s s' → bodies s' !! a = None → bodies s !! a = None.
Proof.
  intros H Hn. destruct (bodies s !! a) as [b | ] eqn:E; [ | reflexivity ].
  rewrite (grows_lookup _ _ _ _ H E) in Hn. discriminate.
Qed.

Lemma nrt_valid_dom s s' (mi : ptr) :
  dom (nrt s') = dom (nrt s) → nrt_valid s mi → nrt_valid s' mi.
Proof.
  intros Hd. destruct mi as [m | ]; simpl; [ | auto ].
  rewrite <- !elem_of_dom, Hd. auto.
Qed.

End StateFacts.

Section ObserverFacts.

Implicit Types (s : state) (obj : addr).

Lemma host_value_Some s obj (nd : ndarray) :
  host_value s obj = Some nd ↔
  ∃ b a, bodies s !! obj = Some b ∧ attrs_of b !! "value" = Some a
         ∧ bodies s !! a = Some (ONdarray nd).
Proof.
  unfold host_value. split.
  - destruct (bodies s !! obj) as [b | ]; simpl; [ | discriminate ].
    destruct (attrs_of b !! "value") as [a | ] eqn:Hv; simpl;
      [ | discriminate ].
    destruct (bodies s !! a) as [ [nd' | | | ] | ] eqn:Ha; simpl;
      try discriminate.
    intros H. inversion H; subst. exists b, a. auto.
  - intros (b & a & -> & Ha & Hnd). simpl. rewrite Ha. simpl. rewrite Hnd.
    reflexivity.
Qed.

Lemma host_layout_Some s obj (l : addr) :
  host_layout s obj = Some l ↔
  ∃ b, bodies s !! obj = Some b ∧ attrs_of b !! "layout" = Some l.
Proof.
  unfold host_layout. split.
  - destruct (bodies s !! obj) as [b | ]; simpl; [ eauto | discriminate ].
  - intros (b & -> & Hl). exact Hl.
Qed.

(** The type of a host multivector is made from the dtype of its
    coefficient array. *)
Lemma typeof_of_value s obj (nd : ndarray) :
  host_value s obj = Some nd →
  _typeof_MultiVector s obj = MultiVectorType_init (ArgDtype (nd_dtype nd)).
Proof.
  intros H. apply host_value_Some in H as (b & a & Hb & Ha & Hnd).
  apply bodies_lookup in Hb as (o & Ho & <-).
  apply bodies_lookup in Hnd as (oa & Hoa & Hbody).
  unfold _typeof_MultiVector, host_getattr, host_dtype.
  rewrite Ho, Ha. simpl. rewrite Hoa, Hbody. reflexivity.
Qed.

End ObserverFacts.

(** C2: a constructed [MultiVectorType] has a struct model of exactly two
    members, in this order: [layout], of the one layout type, and [value],
    a one-dimensional array of the framework's scalar type for the dtype.
    The member types are computed from the dtype alone: types of equal
    dtype have equal members. *)
Theorem MultiVectorModel_two_members (a : py_arg) (T : MultiVectorType) :
  MultiVectorType_init a = Return T →
  ∃ elt,
    from_dtype (dtype T) = Return elt
    ∧ MultiVectorModel_members T =
        Return [("layout", LayoutType); ("value", Array elt 1 LayoutA)]
    ∧ (∀ ms, MultiVectorModel_members T = Return ms → length ms = 2)
    ∧ (∀ T', dtype T' = dtype T →
         MultiVectorModel_members T' = MultiVectorModel_members T).
Proof.
  intros H. apply MultiVectorType_init_inv in H as (_ & elt & Hd & _).
  exists elt. split; [ exact Hd | ].
  pose proof (members_of_dtype _ _ Hd) as Hm. split; [ exact Hm | ]. split.
  - intros ms Hms. rewrite Hm in Hms. inversion Hms. reflexivity.
  - intros T' HT'. rewrite Hm. apply members_of_dtype. rewrite HT'. exact Hd.
Qed.

Lemma MultiVectorModel_two_members_witness :
  ∃ elt,
    from_dtype (dt_float F64) = Return elt
    ∧ MultiVectorModel_members
        {| dtype := dt_float F64; name := "MultiVector[float64]" |} =
        Return [("layout", LayoutType); ("value", Array elt 1 LayoutA)]
    ∧ (∀ ms, MultiVectorModel_members
               {| dtype := dt_float F64; name := "MultiVector[float64]" |} =
               Return ms → length ms = 2)
    ∧ (∀ T', dtype T' = dt_float F64 →
         MultiVectorModel_members T' =
         MultiVectorModel_members
           {| dtype := dt_float F64; name := "MultiVector[float64]" |}).
Proof.
  exact (MultiVectorModel_two_members (ArgDtype (dt_float F64))
           {| dtype := dt_float F64; name := "MultiVector[float64]" |} eq_refl).
Defined.

(** C3: the dtype of a [MultiVectorType] is the one given to the
    constructor; the class assigns [self.dtype] there and nowhere else (its
    properties only read it: an instance is an immutable record here).  The
    identity key is that dtype, and two constructed instances are the same
    framework type exactly when their dtypes are equal. *)
Theorem MultiVectorType_key_is_dtype (d1 d2 : Numpy.dtype) (T1 T2 : MultiVectorType) :
  MultiVectorType_init (ArgDtype d1) = Return T1 →
  MultiVectorType_init (ArgDtype d2) = Return T2 →
  dtype T1 = d1 ∧ key T1 = d1 ∧ dtype T2 = d2 ∧ key T2 = d2
  ∧ (type_eqb (MultiVector T1) (MultiVector T2) = true ↔ d1 = d2)
  ∧ (d1 = d2 → T1 = T2).
Proof.
  intros H1 H2.
  pose proof (MultiVectorType_init_inv _ _ H1) as (E1 & t1 & F1 & N1).
  pose proof (MultiVectorType_init_inv _ _ H2) as (E2 & t2 & F2 & N2).
  inversion E1 as [D1]. inversion E2 as [D2]. clear E1 E2.
  subst d1 d2. unfold key. repeat split.
  - simpl. intros H. apply bool_decide_eq_true in H. exact H.
  - intros E. simpl. apply bool_decide_eq_true. exact E.
  - intros E. destruct T1 as [x1 n1], T2 as [x2 n2]; simpl in *. congruence.
Qed.

Lemma MultiVectorType_key_is_dtype_witness :
  let T1 := {| dtype := dt_float F64; name := "MultiVector[float64]" |} in
  let T2 := {| dtype := dt_float F32; name := "MultiVector[float32]" |} in
  dtype T1 = dt_float F64 ∧ key T1 = dt_float F64
  ∧ dtype T2 = dt_float F32 ∧ key T2 = dt_float F32
  ∧ (type_eqb (MultiVector T1) (MultiVector T2) = true ↔ dt_float F64 = dt_float F32)
  ∧ (dt_float F64 = dt_float F32 → T1 = T2).
Proof.
  exact (MultiVectorType_key_is_dtype (dt_float F64) (dt_float F32) _ _
           eq_refl eq_refl).
Defined.

(** C4: the layout type is one opaque type: every [MultiVectorType],
    whatever its dtype, has the same [layout_type].  The type assigned to a
    host multivector is computed from the dtype of its coefficient array
    alone: two host objects whose arrays have equal dtypes get the same
    result, whatever their layouts are (or whether they have one). *)
Theorem layout_type_opaque :
  (∀ T1 T2 : MultiVectorType,
     layout_type T1 = layout_type T2
     ∧ type_eqb (layout_type T1) (layout_type T2) = true)
  ∧ (∀ s1 s2 val1 val2 nd1 nd2,
       host_value s1 val1 = Some nd1 →
       host_value s2 val2 = Some nd2 →
       nd_dtype nd1 = nd_dtype nd2 →
       _typeof_MultiVector s1 val1 = _typeof_MultiVector s2 val2).
Proof.
  split; [ intros; split; reflexivity | ].
  intros s1 s2 val1 val2 nd1 nd2 H1 H2 Hd.
  rewrite (typeof_of_value _ _ _ H1), (typeof_of_value _ _ _ H2), Hd.
  reflexivity.
Qed.

Lemma layout_type_opaque_witness :
  layout_type Example.float64_mv
  = layout_type {| dtype := dt_int W32; name := "MultiVector[int32]" |}
  ∧ _typeof_MultiVector Example.world Example.other_addr
    = _typeof_MultiVector Example.world Example.bare_addr.
Proof.
  split.
  - apply (proj1 layout_type_opaque).
  - apply (proj2 layout_type_opaque Example.world Example.world
             Example.other_addr Example.bare_addr
             Example.e2_array Example.e2_array);
      vm_compute; reflexivity.
Defined.

(** C7: the typer gives a result type only when its first argument is the
    layout type and its second an array type (the result is then the
    [MultiVectorType] of the array's element dtype); for every other pair
    of argument types it returns [None], no result type. *)
Theorem typer_requires_layout_and_array (layout value : nb_type) :
  (∀ R, typer layout value = Return (Some R) →
     layout = LayoutType
     ∧ ∃ elt ndim l d T, value = Array elt ndim l ∧ as_dtype elt = Return d
         ∧ R = MultiVector T ∧ dtype T = d)
  ∧ ((layout ≠ LayoutType ∨ ∀ elt ndim l, value ≠ Array elt ndim l) →
     typer layout value = Return None).
Proof.
  split.
  - intros R H. unfold typer in H.
    destruct layout; try discriminate H.
    destruct value as [ | | | | | | elt ndim l | | ]; try discriminate H.
    split; [ reflexivity | ].
    destruct (as_dtype elt) as [d | e] eqn:Hd; [ | discriminate H ].
    simpl in H.
    destruct (MultiVectorType_init (ArgDtype d)) as [T | e] eqn:HT;
      [ | discriminate H ].
    inversion H; subst.
    apply MultiVectorType_init_inv in HT as [E _]. inversion E.
    exists elt, ndim, l, (dtype T), T. rewrite <- H1. auto.
  - intros [H | H]; unfold typer.
    + destruct layout; try reflexivity. congruence.
    + destruct layout; try reflexivity.
      destruct value as [ | | | | | | elt ndim l | | ]; try reflexivity.
      destruct (H elt ndim l). reflexivity.
Qed.

Lemma typer_requires_layout_and_array_witness :
  (LayoutType = LayoutType
   ∧ ∃ elt ndim l d T,
       Array (Float NF64) 2 LayoutC = Array elt ndim l
       ∧ as_dtype elt = Return d
       ∧ MultiVector Example.float64_mv = MultiVector T ∧ dtype T = d)
  ∧ typer (Float NF64) (Array (Float NF64) 1 LayoutC) = Return None
  ∧ typer LayoutType LayoutType = Return None.
Proof.
  split; [ | split ].
  - apply (proj1 (typer_requires_layout_and_array LayoutType
                    (Array (Float NF64) 2 LayoutC))).
    reflexivity.
  - apply (proj2 (typer_requires_layout_and_array (Float NF64)
                    (Array (Float NF64) 1 LayoutC))).
    left. discriminate.
  - apply (proj2 (typer_requires_layout_and_array LayoutType LayoutType)).
    right. intros elt ndim l. discriminate.
Defined.

(* ===================================================================== *)
(** ** Rules for the calls of emitted code *)
(* ===================================================================== *)

Section Rules.

Context {A B : Type}.
Implicit Types (s : state) (a : addr) (p : ptr).

Lemma wp_ret (x : A) s (Q : A → state → Prop) : Q x s → wp (mret x) s Q.
Proof. intros H. exists x, s. split; [ reflexivity | exact H ]. Qed.

Lemma wp_bind (m : M A) (k : A → M B) s (Q : B → state → Prop) :
  wp m s (λ x s', wp (k x) s' Q) → wp (m ≫= k) s Q.
Proof.
  intros (x & s' & Hm & y & s'' & Hk & HQ).
  exists y, s''. split; [ | exact HQ ].
  unfold mbind, M_bind. rewrite Hm. exact Hk.
Qed.

Lemma wp_mono (m : M A) s (Q Q' : A → state → Prop) :
  wp m s Q → (∀ x s', Q x s' → Q' x s') → wp m s Q'.
Proof. intros (x & s' & Hm & HQ) H. exists x, s'. auto. Qed.

(** Emitted code is deterministic: what [wp] promises holds of the run. *)
Lemma wp_run (m : M A) s (Q : A → state → Prop) x s' :
  wp m s Q → m s = Some (x, s') → Q x s'.
Proof. intros (y & s'' & Hm & HQ) H. congruence. Qed.

End Rules.


Section CallRules.

Context {A : Type}.
Implicit Types (s : state) (a : addr) (p : ptr) (Q : A → state → Prop).

Lemma wp_deref a s b (Q : pyobject → state → Prop) :
  bodies s !! a = Some b →
  (∀ o, ob_body o = b → Q o s) →
  wp (deref a) s Q.
Proof.
  intros H HQ. apply bodies_lookup in H as (o & Ho & Hb).
  exists o, s. unfold deref. rewrite Ho. auto.
Qed.

Lemma wp_add_refcnt (d : Z) a s (Q : unit → state → Prop) :
  is_Some (bodies s !! a) →
  Q tt (set_heap (alter (add_refcnt d) a) s) →
  wp (_ ← deref a; modify (set_heap (alter (add_refcnt d) a))) s Q.
Proof.
  intros [b Hb] HQ. apply wp_bind. apply (wp_deref _ _ _ _ Hb).
  intros o _. eexists tt, _. split; [ reflexivity | exact HQ ].
Qed.

Lemma wp_incref a s (Q : unit → state → Prop) :
  is_Some (bodies s !! a) →
  Q tt (set_heap (alter (add_refcnt 1) a) s) →
  wp (incref (Some a)) s Q.
Proof. apply wp_add_refcnt. Qed.

Lemma wp_decref a s (Q : unit → state → Prop) :
  is_Some (bodies s !! a) →
  Q tt (set_heap (alter (add_refcnt (-1)) a) s) →
  wp (decref (Some a)) s Q.
Proof. apply wp_add_refcnt. Qed.

Lemma wp_decref_null s (Q : unit → state → Prop) :
  Q tt s → wp (decref None) s Q.
Proof. apply wp_ret. Qed.

Lemma wp_err_set e s (Q : unit → state → Prop) :
  Q tt (set_err (Some e) s) → wp (err_set e) s Q.
Proof. intros H. eexists tt, _. split; [ reflexivity | exact H ]. Qed.

Lemma wp_err_occurred s (Q : option exn → state → Prop) :
  Q (err s) s → wp err_occurred s Q.
Proof. intros H. eexists _, _. split; [ reflexivity | exact H ]. Qed.

Lemma wp_getattr_found a s b attr v (Q : ptr → state → Prop) :
  bodies s !! a = Some b →
  attrs_of b !! attr = Some v →
  is_Some (bodies s !! v) →
  Q (Some v) (set_heap (alter (add_refcnt 1) v) s) →
  wp (object_getattr_string (Some a) attr) s Q.
Proof.
  intros Hb Hv Hlive HQ. unfold object_getattr_string.
  apply wp_bind, (wp_deref _ _ _ _ Hb). intros o ->. rewrite Hv.
  apply wp_bind, wp_incref; [ exact Hlive | ]. apply wp_ret, HQ.
Qed.

Lemma wp_getattr_missing a s b attr (Q : ptr → state → Prop) :
  bodies s !! a = Some b →
  attrs_of b !! attr = None →
  Q None (set_err (Some AttributeError) s) →
  wp (object_getattr_string (Some a) attr) s Q.
Proof.
  intros Hb Hv HQ. unfold object_getattr_string.
  apply wp_bind, (wp_deref _ _ _ _ Hb). intros o ->. rewrite Hv.
  apply wp_bind, wp_err_set. apply wp_ret, HQ.
Qed.

Lemma wp_nrt_add (d : Z) (mi : ptr) s (Q : unit → state → Prop) :
  nrt_valid s mi →
  (∀ s', heap s' = heap s → bufs s' = bufs s → err s' = err s →
         globals s' = globals s → dom (nrt s') = dom (nrt s) → Q tt s') →
  wp (nrt_add d mi) s Q.
Proof.
  intros Hv HQ. destruct mi as [m | ]; simpl in *.
  - destruct Hv as [c Hc]. eexists tt, _. rewrite Hc. split; [ reflexivity | ].
    apply HQ; try reflexivity. simpl. apply dom_alter_L.
  - apply wp_ret, HQ; reflexivity.
Qed.

Lemma wp_nrt_alloc s (Q : addr → state → Prop) :
  (∀ m, nrt s !! m = None → Q m (set_nrt (insert m 1%Z) s)) →
  wp nrt_alloc s Q.
Proof.
  intros HQ. eexists _, _. split; [ reflexivity | ].
  apply HQ, not_elem_of_dom, is_fresh.
Qed.

Lemma wp_py_alloc (b : body) s (Q : addr → state → Prop) :
  (∀ a, bodies s !! a = None →
        Q a (set_heap (insert a {| ob_refcnt := 1; ob_body := b |}) s)) →
  wp (py_alloc b) s Q.
Proof.
  intros HQ. eexists _, _. split; [ reflexivity | ].
  apply HQ, fresh_bodies.
Qed.

End CallRules.

(** Simplification of the observations on a state term. *)
Ltac simpl_state :=
  repeat first
    [ rewrite bodies_add_refcnt
    | rewrite bodies_alloc
    | rewrite bodies_set_err
    | rewrite bodies_set_nrt
    | progress cbn [heap bufs err nrt globals set_heap set_err set_nrt] ].

Section ConstructorLowering.

(** The code that [impl_MultiVector] generates, whatever the signature
    it accepted. *)
Lemma impl_MultiVector_code (sig : signature) code :
  impl_MultiVector sig = Return code →
  code = (λ '(l, v), impl_ret_borrowed {| layout := l; value := v |}).
Proof.
  unfold impl_MultiVector.
  destruct (struct_model (return_type sig)) as [ms | e]; [ | discriminate ].
  simpl. destruct (args sig) as [ | lt [ | vt [ | ] ] ]; try discriminate.
  destruct (get_member_fe_type ms "layout") as [x | e]; [ | discriminate ].
  simpl. destruct (check_store x lt) as [ [] | e]; [ | discriminate ].
  simpl. destruct (get_member_fe_type ms "value") as [y | e]; [ | discriminate ].
  simpl. destruct (check_store y vt) as [ [] | e]; [ | discriminate ].
  simpl. intros H. inversion H. reflexivity.
Qed.

Lemma wp_impl_ret_borrowed_struct (mv : MultiVectorStruct) s
    (Q : MultiVectorStruct → state → Prop) :
  nrt_valid s (meminfo (value mv)) →
  (∀ s', heap s' = heap s → bufs s' = bufs s → err s' = err s →
         globals s' = globals s → dom (nrt s') = dom (nrt s) → Q mv s') →
  wp (impl_ret_borrowed mv) s Q.
Proof.
  intros Hv HQ. unfold impl_ret_borrowed. apply wp_bind.
  cbn [nrt_members MultiVectorModel opaque_model array_model app nrt_incref_all].
  apply wp_bind. apply wp_nrt_add; [ exact Hv | ].
  intros s' H1 H2 H3 H4 H5. apply wp_ret, wp_ret. apply HQ; assumption.
Qed.

End ConstructorLowering.

(** C5: the code generated for [MultiVector(layout, value)] in compiled
    code returns the struct whose [layout] member is the layout argument
    and whose [value] member is the array argument (the struct has no other
    member).  Nothing is copied: the array member is the argument itself,
    data pointer included, no host object, buffer or memory-info block is
    made or changed; only a reference count of the native runtime moves. *)
Theorem impl_MultiVector_builds_struct (sig : signature)
    (code : ptr * native_array → M MultiVectorStruct)
    (layout0 : ptr) (value0 : native_array) (s : state) :
  impl_MultiVector sig = Return code →
  nrt_valid s (meminfo value0) →
  ∃ s', code (layout0, value0) s
          = Some ({| layout := layout0; value := value0 |}, s')
        ∧ heap s' = heap s ∧ bufs s' = bufs s ∧ err s' = err s
        ∧ globals s' = globals s ∧ dom (nrt s') = dom (nrt s).
Proof.
  intros Hcode Hv. rewrite (impl_MultiVector_code _ _ Hcode).
  assert (Hwp : wp (impl_ret_borrowed {| layout := layout0; value := value0 |}) s
            (λ mv s', mv = {| layout := layout0; value := value0 |}
                      ∧ heap s' = heap s ∧ bufs s' = bufs s ∧ err s' = err s
                      ∧ globals s' = globals s ∧ dom (nrt s') = dom (nrt s))).
  { apply wp_impl_ret_borrowed_struct; [ exact Hv | ].
    intros; repeat split; assumption. }
  destruct Hwp as (mv & s' & Hrun & -> & H).
  exists s'. split; [ exact Hrun | exact H ].
Qed.

Lemma impl_MultiVector_builds_struct_witness :
  let sig := {| return_type := MultiVector Example.float64_mv;
                args := [LayoutType; Array (Float NF64) 1 LayoutC] |} in
  let value0 := {| meminfo := None; parent := Some Example.arr_addr;
                   nitems := 4; itemsize := 8; data := Example.buf_addr;
                   shape := [4%Z]; strides := [8%Z] |} in
  ∃ code, impl_MultiVector sig = Return code
    ∧ ∃ s', code (Some Example.layout_addr, value0) Example.world
              = Some ({| layout := Some Example.layout_addr; value := value0 |}, s')
            ∧ heap s' = heap Example.world ∧ bufs s' = bufs Example.world
            ∧ err s' = err Example.world ∧ globals s' = globals Example.world
            ∧ dom (nrt s') = dom (nrt Example.world).
Proof.
  intros sig value0. eexists. split; [ reflexivity | ].
  apply (impl_MultiVector_builds_struct sig _ (Some Example.layout_addr) value0
           Example.world); [ reflexivity | exact I ].
Defined.

Section AttributeWrappers.

Lemma find_wrapper_value :
  find_wrapper "value" = Some (make_attribute_wrapper "value" "value").
Proof. reflexivity. Qed.

Lemma find_wrapper_layout :
  find_wrapper "layout" = Some (make_attribute_wrapper "layout" "layout").
Proof. reflexivity. Qed.

Lemma find_wrapper_other (attr : string) :
  attr ≠ "value" → attr ≠ "layout" → find_wrapper attr = None.
Proof.
  intros H1 H2. unfold find_wrapper, attribute_wrappers. simpl.
  rewrite !bool_decide_eq_false_2 by (simpl; congruence). reflexivity.
Qed.

(** Reading the array member hands it back and counts the reference. *)
Lemma read_array_member (mv : MultiVectorStruct) (s : state) :
  nrt_valid s (meminfo (value mv)) →
  ∃ s', impl_ret_borrowed (MArray (value mv)) s = Some (MArray (value mv), s')
        ∧ heap s' = heap s ∧ bufs s' = bufs s ∧ err s' = err s
        ∧ globals s' = globals s ∧ dom (nrt s') = dom (nrt s).
Proof.
  intros Hv.
  assert (Hwp : wp (impl_ret_borrowed (MArray (value mv))) s
            (λ r s', r = MArray (value mv)
                     ∧ heap s' = heap s ∧ bufs s' = bufs s ∧ err s' = err s
                     ∧ globals s' = globals s ∧ dom (nrt s') = dom (nrt s))).
  { unfold impl_ret_borrowed. apply wp_bind.
    cbn [nrt_members member_model array_model nrt_incref_all].
    apply wp_bind. apply wp_nrt_add; [ exact Hv | ].
    intros s' H1 H2 H3 H4 H5. apply wp_ret, wp_ret.
    repeat split; assumption. }
  destruct Hwp as (r & s' & Hrun & -> & H). eauto.
Qed.

End AttributeWrappers.

(** C9: compiled code can read [.value] and [.layout] of a compiled
    multivector.  The typing rule gives the attribute the type of the
    member, the generated code returns exactly the member stored in the
    struct (the struct is an argument passed by value and is not written;
    host objects and buffers are untouched, reading the array counts one
    more reference to its memory-info block), and no other attribute name
    has a typing rule or a lowering. *)
Theorem attribute_wrappers_read_members (a : py_arg) (T : MultiVectorType) :
  MultiVectorType_init a = Return T →
  (∃ vt, value_type T = Return vt ∧ resolve_getattr T "value" = Return (Some vt))
  ∧ resolve_getattr T "layout" = Return (Some (layout_type T))
  ∧ (∀ attr, attr ≠ "value" → attr ≠ "layout" →
       resolve_getattr T attr = Return None ∧ lower_getattr T attr = Return None)
  ∧ (∃ read_value,
       lower_getattr T "value" = Return (Some read_value)
       ∧ ∀ mv s, nrt_valid s (meminfo (value mv)) →
           ∃ s', read_value mv s = Some (MArray (value mv), s')
                 ∧ heap s' = heap s ∧ bufs s' = bufs s ∧ err s' = err s
                 ∧ globals s' = globals s ∧ dom (nrt s') = dom (nrt s))
  ∧ (∃ read_layout,
       lower_getattr T "layout" = Return (Some read_layout)
       ∧ ∀ mv s, read_layout mv s = Some (MLayout (layout mv), s)).
Proof.
  intros H. apply MultiVectorType_init_inv in H as (_ & elt & Hd & _).
  pose proof (members_of_dtype _ _ Hd) as Hm.
  split; [ | split; [ | split; [ | split ] ] ].
  - exists (Array elt 1 LayoutA). split; [ apply value_type_of_dtype, Hd | ].
    unfold resolve_getattr. rewrite find_wrapper_value, Hm. reflexivity.
  - unfold resolve_getattr. rewrite find_wrapper_layout, Hm. reflexivity.
  - intros attr H1 H2. unfold resolve_getattr, lower_getattr.
    rewrite (find_wrapper_other _ H1 H2). split; reflexivity.
  - eexists. split.
    + unfold lower_getattr. rewrite find_wrapper_value.
      unfold struct_getattr_impl. rewrite Hm. reflexivity.
    + intros mv s Hv. apply read_array_member, Hv.
  - eexists. split.
    + unfold lower_getattr. rewrite find_wrapper_layout.
      unfold struct_getattr_impl. rewrite Hm. reflexivity.
    + intros mv s. reflexivity.
Qed.

Lemma attribute_wrappers_read_members_witness :
  (∃ vt, value_type Example.float64_mv = Return vt
         ∧ resolve_getattr Example.float64_mv "value" = Return (Some vt))
  ∧ resolve_getattr Example.float64_mv "layout"
    = Return (Some (layout_type Example.float64_mv))
  ∧ (∀ attr, attr ≠ "value" → attr ≠ "layout" →
       resolve_getattr Example.float64_mv attr = Return None
       ∧ lower_getattr Example.float64_mv attr = Return None)
  ∧ (∃ read_value,
       lower_getattr Example.float64_mv "value" = Return (Some read_value)
       ∧ ∀ mv s, nrt_valid s (meminfo (value mv)) →
           ∃ s', read_value mv s = Some (MArray (value mv), s')
                 ∧ heap s' = heap s ∧ bufs s' = bufs s ∧ err s' = err s
                 ∧ globals s' = globals s ∧ dom (nrt s') = dom (nrt s))
  ∧ (∃ read_layout,
       lower_getattr Example.float64_mv "layout" = Return (Some read_layout)
       ∧ ∀ mv s, read_layout mv s = Some (MLayout (layout mv), s)).
Proof.
  exact (attribute_wrappers_read_members (ArgDtype (dt_float F64))
           Example.float64_mv eq_refl).
Defined.

Section BoxingRules.

Implicit Types (s : state) (a : native_array) (descr : Numpy.dtype).

Lemma bodies_of_heap s s' : heap s' = heap s → bodies s' = bodies s.
Proof. unfold bodies. intros ->. reflexivity. Qed.

Lemma grows_alloc s o (b : body) :
  bodies s !! o = None →
  grows s (set_heap (insert o {| ob_refcnt := 1; ob_body := b |}) s).
Proof.
  intros H. split; [ | split; reflexivity ].
  rewrite bodies_alloc. apply insert_subseteq, H.
Qed.

Lemma grows_add_refcnt s (d : Z) o :
  grows s (set_heap (alter (add_refcnt d) o) s).
Proof.
  split; [ | split; reflexivity ]. rewrite bodies_add_refcnt. reflexivity.
Qed.

Lemma wp_new_array descr a s :
  nrt_valid s (meminfo a) →
  wp (_ ← nrt_incref (meminfo a);
      n ← py_alloc (ONdarray {| nd_dtype := descr; nd_shape := shape a;
                                nd_strides := strides a; nd_data := data a |});
      mret (Some n)) s (boxed_array s descr a).
Proof.
  intros Hv. apply wp_bind, wp_nrt_add; [ exact Hv | ].
  intros s1 Hh Hb He Hg Hn. apply wp_bind, wp_py_alloc. intros o Ho.
  apply wp_ret. exists o. split; [ reflexivity | ].
  pose proof (bodies_of_heap _ _ Hh) as Hbd.
  split; [ | split; [ | split ] ].
  - eexists. rewrite bodies_alloc, lookup_insert_eq. repeat split.
  - split; [ | split ].
    + rewrite bodies_alloc, <- Hbd. apply insert_subseteq, Ho.
    + simpl. exact Hb.
    + simpl. exact Hg.
  - simpl. exact He.
  - simpl. exact Hn.
Qed.

Lemma same_array_true (nd : ndarray) descr (ndim : nat) a :
  same_array nd descr ndim a = true →
  nd_dtype nd = descr ∧ nd_data nd = data a
  ∧ nd_shape nd = shape a ∧ nd_strides nd = strides a.
Proof.
  unfold same_array. rewrite !andb_true_iff, !bool_decide_eq_true.
  intros ((((? & ?) & ?) & ?) & ?). auto.
Qed.

Lemma wp_nrt_adapt descr (ndim : nat) a s :
  parent_live s a →
  nrt_valid s (meminfo a) →
  wp (nrt_adapt_ndarray_to_python descr ndim a) s (boxed_array s descr a).
Proof.
  intros Hp Hv. unfold nrt_adapt_ndarray_to_python, try_to_return_parent.
  unfold parent_live in Hp. destruct (parent a) as [p | ].
  - destruct Hp as [b Hb]. apply wp_bind, wp_bind, (wp_deref _ _ _ _ Hb).
    intros o ->. destruct b as [nd | cls attrs | cname | dt ].
    + destruct (same_array nd descr ndim a) eqn:Hs.
      * apply wp_bind, wp_incref; [ eauto | ]. apply wp_ret, wp_ret.
        exists p. split; [ reflexivity | ].
        split; [ | split; [ apply grows_add_refcnt | split; reflexivity ] ].
        exists nd. rewrite bodies_add_refcnt. split; [ exact Hb | ].
        apply same_array_true in Hs. exact Hs.
      * apply wp_ret. apply wp_new_array, Hv.
    + apply wp_ret. apply wp_new_array, Hv.
    + apply wp_ret. apply wp_new_array, Hv.
    + apply wp_ret. apply wp_new_array, Hv.
  - apply wp_bind, wp_ret. apply wp_new_array, Hv.
Qed.

Lemma wp_box_array descr (ndim : nat) a s :
  parent_live s a →
  nrt_valid s (meminfo a) →
  wp (box_array descr ndim a) s (boxed_array s descr a).
Proof.
  intros Hp Hv. unfold box_array. apply wp_bind.
  eapply wp_mono; [ apply wp_nrt_adapt; assumption | ].
  intros r s1 (o & -> & Harr & Hg & He & Hn).
  apply wp_bind, wp_nrt_add; [ eapply nrt_valid_dom; eassumption | ].
  intros s2 Hh Hb He2 Hg2 Hn2. apply wp_ret.
  pose proof (bodies_of_heap _ _ Hh) as Hbd.
  exists o. split; [ reflexivity | ]. split; [ | split; [ | split ] ].
  - destruct Harr as (nd & ? & ?). exists nd. rewrite Hbd. auto.
  - destruct Hg as (G1 & G2 & G3). split; [ | split ].
    + rewrite Hbd. exact G1.
    + congruence.
    + congruence.
  - congruence.
  - congruence.
Qed.

Lemma wp_box_Layout (l : addr) s :
  is_Some (bodies s !! l) →
  wp (box_Layout (Some l)) s
     (λ r s', r = Some l ∧ s' = set_heap (alter (add_refcnt 1) l) s).
Proof.
  intros H. unfold box_Layout. apply wp_bind, wp_incref; [ exact H | ].
  apply wp_ret. split; reflexivity.
Qed.

Lemma wp_unserialize (qualname : string) (c : addr) s :
  globals s !! qualname = Some c →
  is_Some (bodies s !! c) →
  wp (unserialize qualname) s
     (λ r s', r = Some c ∧ s' = set_heap (alter (add_refcnt 1) c) s).
Proof.
  intros Hg Hc. unfold unserialize. apply wp_bind.
  eexists s, s. split; [ reflexivity | ]. rewrite Hg.
  apply wp_bind, wp_incref; [ exact Hc | ]. apply wp_ret. split; reflexivity.
Qed.

(** Calling the class with two live arguments makes a new instance that
    holds them, in this order. *)
Lemma wp_call_MultiVector (c l v : addr) s :
  bodies s !! c = Some (OClass "MultiVector") →
  is_Some (bodies s !! l) →
  is_Some (bodies s !! v) →
  wp (call_function_objargs (Some c) [Some l; Some v]) s
     (λ r s', ∃ o, r = Some o ∧ bodies s !! o = None
        ∧ bodies s' = <[o := OInstance "MultiVector"
                               {[ "layout" := l; "value" := v ]}]> (bodies s)
        ∧ bufs s' = bufs s ∧ err s' = err s ∧ globals s' = globals s
        ∧ nrt s' = nrt s).
Proof.
  intros Hc Hl Hv. unfold call_function_objargs.
  apply wp_bind, (wp_deref _ _ _ _ Hc). intros o ->.
  rewrite bool_decide_eq_true_2 by reflexivity.
  cbn [objargs]. unfold MultiVector_call.
  apply wp_bind, wp_incref; [ exact Hl | ].
  apply wp_bind, wp_incref; [ simpl_state; exact Hv | ].
  apply wp_bind, wp_py_alloc. intros n Hn. apply wp_ret.
  rewrite !bodies_add_refcnt in Hn. exists n. simpl_state.
  repeat split. exact Hn.
Qed.

End BoxingRules.

Section BoxMultiVector.

Implicit Types (s : state) (T : MultiVectorType) (val : MultiVectorStruct).

Lemma box_MultiVector_code T code :
  box_MultiVector T = Return code →
  (∃ elt, from_dtype (dtype T) = Return elt) ∧ code = box_code T.
Proof.
  unfold box_MultiVector, value_type.
  destruct (from_dtype (dtype T)) as [elt | e] eqn:Hd; [ | discriminate ].
  simpl. rewrite (as_dtype_from_dtype _ _ Hd). simpl.
  intros H. inversion H. split; [ eauto | reflexivity ].
Qed.

Lemma box_MultiVector_returns T :
  (∃ elt, from_dtype (dtype T) = Return elt) →
  box_MultiVector T = Return (box_code T).
Proof.
  intros [elt Hd]. unfold box_MultiVector, value_type. rewrite Hd. simpl.
  rewrite (as_dtype_from_dtype _ _ Hd). reflexivity.
Qed.

Lemma wp_box_code T val (l : addr) s :
  layout val = Some l →
  is_Some (bodies s !! l) →
  parent_live s (value val) →
  nrt_valid s (meminfo (value val)) →
  class_registered s →
  wp (box_code T val) s (boxed_MultiVector s (dtype T) l val).
Proof.
  intros Hl Hlive Hp Hv (c & Hg & Hc). unfold box_code. rewrite Hl.
  apply wp_bind. eapply wp_mono; [ apply wp_box_array; assumption | ].
  intros r s1 (oa & -> & Harr & G1 & E1 & N1).
  pose proof (grows_live _ _ _ G1 Hlive) as Hlive1.
  pose proof (grows_lookup _ _ _ _ G1 Hc) as Hc1.
  assert (Hoa : is_Some (bodies s1 !! oa)).
  { destruct Harr as (nd & H & _). eauto. }
  apply wp_bind. eapply wp_mono; [ apply wp_box_Layout, Hlive1 | ].
  intros r s2 (-> & ->).
  apply wp_bind. eapply wp_mono.
  { apply (wp_unserialize _ c).
    - simpl_state. destruct G1 as (_ & _ & G). rewrite G. exact Hg.
    - simpl_state. eauto. }
  intros r s3 (-> & ->).
  apply wp_bind. eapply wp_mono.
  { apply (wp_call_MultiVector c l oa); simpl_state; assumption. }
  intros r s4 (n & -> & Hn & Hb4 & Hbufs & Herr & Hglob & Hnrt).
  revert Hn Hb4 Hbufs Herr Hglob. simpl_state. intros Hn Hb4 Hbufs Herr Hglob.
  assert (Hne : ∀ x, is_Some (bodies s1 !! x) → bodies s4 !! x = bodies s1 !! x).
  { intros x [b Hx]. rewrite Hb4. apply lookup_insert_ne. congruence. }
  apply wp_bind, wp_decref; [ rewrite Hne; assumption | ].
  apply wp_bind, wp_decref; [ simpl_state; rewrite Hne; eauto | ].
  apply wp_bind, wp_decref; [ simpl_state; rewrite Hne; eauto | ].
  apply wp_ret. exists n, oa. simpl_state.
  split; [ reflexivity | ]. split; [ eapply grows_fresh; eassumption | ].
  split; [ rewrite Hb4; apply lookup_insert_eq | ].
  split; [ | split ].
  - destruct Harr as (nd & H & Hrest). exists nd. simpl_state.
    rewrite Hne by eauto. auto.
  - destruct G1 as (Ga & Gb & Gc). split; [ | split ]; simpl_state.
    + rewrite Hb4. etrans; [ exact Ga | ]. apply insert_subseteq, Hn.
    + congruence.
    + congruence.
  - congruence.
Qed.

End BoxMultiVector.

(** C6: boxing a compiled multivector makes a new host object.  When the
    members of the struct are alive, the generated code returns an object
    that did not exist before (so not a host reference kept from an earlier
    unboxing); it is the instance the class [MultiVector] made from the
    boxed layout, its first argument (the object the [layout] member
    refers to), and the boxed coefficient array, its second argument (an
    array object over the data of the [value] member).  Earlier objects are
    kept and no error is set. *)
Theorem box_MultiVector_wraps (T : MultiVectorType)
    (code : MultiVectorStruct → M ptr) (val : MultiVectorStruct)
    (l : addr) (s : state) :
  box_MultiVector T = Return code →
  layout val = Some l →
  is_Some (bodies s !! l) →
  parent_live s (value val) →
  nrt_valid s (meminfo (value val)) →
  class_registered s →
  ∃ r mv_obj s',
    code val s = Some (Some r, s')
    ∧ bodies s !! r = None
    ∧ bodies s' !! r
      = Some (OInstance "MultiVector" {[ "layout" := l; "value" := mv_obj ]})
    ∧ array_object_of s' mv_obj (dtype T) (value val)
    ∧ grows s s' ∧ err s' = err s.
Proof.
  intros Hcode Hl Hlive Hp Hv Hc.
  apply box_MultiVector_code in Hcode as [_ ->].
  destruct (wp_box_code T val l s Hl Hlive Hp Hv Hc)
    as (r & s' & Hrun & o & mv_obj & -> & H).
  exists o, mv_obj, s'. split; [ exact Hrun | exact H ].
Qed.

Lemma box_MultiVector_wraps_witness :
  let val := {| layout := Some Example.layout_addr;
                value := {| meminfo := None; parent := Some Example.arr_addr;
                            nitems := 4; itemsize := 8;
                            data := Example.buf_addr;
                            shape := [4%Z]; strides := [8%Z] |} |} in
  ∃ code, box_MultiVector Example.float64_mv = Return code
    ∧ ∃ r mv_obj s',
        code val Example.world = Some (Some r, s')
        ∧ bodies Example.world !! r = None
        ∧ bodies s' !! r
          = Some (OInstance "MultiVector"
                    {[ "layout" := Example.layout_addr; "value" := mv_obj ]})
        ∧ array_object_of s' mv_obj (dtype Example.float64_mv) (value val)
        ∧ grows Example.world s' ∧ err s' = err Example.world.
Proof.
  intros val. eexists. split; [ reflexivity | ].
  apply (box_MultiVector_wraps Example.float64_mv _ val Example.layout_addr
           Example.world).
  - reflexivity.
  - reflexivity.
  - eexists. vm_compute. reflexivity.
  - eexists. vm_compute. reflexivity.
  - exact I.
  - exists Example.cls_addr. split; vm_compute; reflexivity.
Defined.

Section UnboxMultiVector.

Implicit Types (s : state) (T : MultiVectorType) (elt : nb_type).

Lemma unbox_MultiVector_code T code :
  unbox_MultiVector T = Return code →
  ∃ elt, from_dtype (dtype T) = Return elt ∧ code = unbox_code elt.
Proof.
  unfold unbox_MultiVector, value_type.
  destruct (from_dtype (dtype T)) as [elt | e] eqn:Hd; [ | discriminate ].
  simpl. intros H. inversion H. exists elt. split; reflexivity.
Qed.

Lemma unbox_MultiVector_returns T elt :
  from_dtype (dtype T) = Return elt →
  unbox_MultiVector T = Return (unbox_code elt).
Proof.
  intros Hd. unfold unbox_MultiVector, value_type. rewrite Hd. reflexivity.
Qed.

Lemma expected_itemsize_from_dtype (d : Numpy.dtype) elt :
  from_dtype d = Return elt → expected_itemsize elt = Some (Numpy.itemsize d).
Proof.
  intros H. unfold expected_itemsize.
  rewrite (as_dtype_from_dtype _ _ H). reflexivity.
Qed.

(** Unboxing an array object of the expected rank and item size. *)
Lemma wp_unbox_array elt (ndim : nat) (a : addr) (nd : ndarray) s :
  bodies s !! a = Some (ONdarray nd) →
  length (nd_shape nd) = ndim →
  expected_itemsize elt = Some (Numpy.itemsize (nd_dtype nd)) →
  wp (unbox_array elt ndim (Some a)) s
     (λ nv s', ∃ m, nrt s !! m = None
        ∧ nv = mkNativeValue (native_of a nd m) false
        ∧ s' = set_nrt (insert m 1%Z) (set_heap (alter (add_refcnt 1) a) s)).
Proof.
  intros Hb Hrank Hsize. unfold unbox_array.
  apply wp_bind, (wp_deref _ _ _ _ Hb). intros o ->.
  rewrite bool_decide_eq_true_2 by exact Hrank.
  apply wp_bind, wp_incref; [ eauto | ].
  apply wp_bind, wp_nrt_alloc. intros m Hm. simpl in Hm.
  rewrite Hsize. cbn [itemsize]. rewrite Z.eqb_refl. simpl.
  apply wp_ret. exists m. repeat split. exact Hm.
Qed.

(** The unboxer on an object whose [value] is an array of rank one and
    of the expected item size, and whose [layout], if it has one, is
    alive. *)
Lemma wp_unbox_code elt (o a : addr) (b : body) (nd : ndarray) s :
  bodies s !! o = Some b →
  attrs_of b !! "value" = Some a →
  bodies s !! a = Some (ONdarray nd) →
  length (nd_shape nd) = 1 →
  expected_itemsize elt = Some (Numpy.itemsize (nd_dtype nd)) →
  match attrs_of b !! "layout" with
  | Some l => is_Some (bodies s !! l)
  | None => True
  end →
  wp (unbox_code elt (Some o)) s
     (λ nv s', ∃ m,
        nv_value nv = {| layout := attrs_of b !! "layout";
                         value := native_of a nd m |}
        ∧ is_error nv = is_not_null (err s')
        ∧ err s' = match attrs_of b !! "layout" with
                   | Some _ => err s
                   | None => Some AttributeError
                   end
        ∧ nrt_valid s' (Some m)
        ∧ bodies s' = bodies s ∧ bufs s' = bufs s ∧ globals s' = globals s).
Proof.
  intros Hb Ha Hnd Hrank Hsize Hl. unfold unbox_code.
  apply wp_bind. eapply wp_getattr_found; [ exact Hb | exact Ha | eauto | ].
  destruct (attrs_of b !! "layout") as [l | ] eqn:Hlay.
  - apply wp_bind.
    eapply wp_getattr_found;
      [ simpl_state; exact Hb | exact Hlay | simpl_state; exact Hl | ].
    apply wp_bind, wp_ret. apply wp_bind.
    eapply wp_mono;
      [ apply (wp_unbox_array elt 1 a nd);
        [ simpl_state; exact Hnd | exact Hrank | exact Hsize ] | ].
    intros nv s3 (m & Hm & -> & ->).
    apply wp_bind, wp_decref; [ simpl_state; eauto | ].
    apply wp_bind, wp_decref; [ simpl_state; exact Hl | ].
    apply wp_bind, wp_err_occurred. apply wp_ret.
    exists m. simpl_state. repeat split.
    simpl. rewrite lookup_insert_eq. eauto.
  - apply wp_bind.
    eapply wp_getattr_missing; [ simpl_state; exact Hb | exact Hlay | ].
    apply wp_bind, wp_ret. apply wp_bind.
    eapply wp_mono;
      [ apply (wp_unbox_array elt 1 a nd);
        [ simpl_state; exact Hnd | exact Hrank | exact Hsize ] | ].
    intros nv s3 (m & Hm & -> & ->).
    apply wp_bind, wp_decref; [ simpl_state; eauto | ].
    apply wp_bind, wp_decref_null.
    apply wp_bind, wp_err_occurred. apply wp_ret.
    exists m. simpl_state. repeat split.
    simpl. rewrite lookup_insert_eq. eauto.
Qed.

End UnboxMultiVector.

Section ElementFacts.


End ElementFacts.




Section Inversion.

Implicit Types (s : state) (p : ptr) (elt : nb_type).

Lemma bind_inv {A B} (m : M A) (k : A → M B) s (y : B) s'' :
  (m ≫= k) s = Some (y, s'') →
  ∃ x s', m s = Some (x, s') ∧ k x s' = Some (y, s'').
Proof.
  unfold mbind, M_bind. destruct (m s) as [ [x s'] | ]; [ eauto | discriminate ].
Qed.

Lemma ret_inv {A} (x y : A) s s' :
  (mret x : M A) s = Some (y, s') → y = x ∧ s' = s.
Proof. intros H. inversion H. auto. Qed.

Lemma add_refcnt_inv (d : Z) (a : addr) s (u : unit) s' :
  (_ ← deref a; modify (set_heap (alter (add_refcnt d) a))) s = Some (u, s') →
  err s' = err s ∧ bodies s' = bodies s.
Proof.
  intros H. apply bind_inv in H as (o & s1 & H1 & H2).
  unfold deref in H1. destruct (heap s !! a); [ | discriminate ].
  inversion H1; subst. inversion H2; subst.
  split; [ reflexivity | apply bodies_add_refcnt ].
Qed.

Lemma decref_inv p s (u : unit) s' :
  decref p s = Some (u, s') → err s' = err s ∧ bodies s' = bodies s.
Proof.
  destruct p as [a | ]; simpl.
  - apply add_refcnt_inv.
  - intros H. inversion H. auto.
Qed.

(** A fetch that returned either found the attribute, or did not and
    set [AttributeError]. *)
Lemma getattr_inv p (attr : string) s (r : ptr) s' :
  object_getattr_string p attr s = Some (r, s') →
  ∃ o b, p = Some o ∧ bodies s !! o = Some b ∧ bodies s' = bodies s
    ∧ r = attrs_of b !! attr
    ∧ err s' = match r with Some _ => err s | None => Some AttributeError end.
Proof.
  destruct p as [o | ]; simpl; [ | discriminate ].
  intros H. apply bind_inv in H as (ob & s1 & H1 & H2).
  unfold deref in H1. destruct (heap s !! o) as [ob' | ] eqn:Ho;
    [ | discriminate ].
  inversion H1; subst ob' s1. clear H1.
  exists o, (ob_body ob). split; [ reflexivity | ].
  split; [ apply bodies_lookup; eauto | ].
  destruct (attrs_of (ob_body ob) !! attr) as [v | ].
  - apply bind_inv in H2 as (u & s2 & H2 & H3).
    apply add_refcnt_inv in H2 as [He Hb]. inversion H3; subst. auto.
  - apply bind_inv in H2 as (u & s2 & H2 & H3).
    inversion H2; subst. inversion H3; subst. auto.
Qed.

(** A conversion that returned either succeeded, or failed and set
    [TypeError] and its flag. *)
Lemma unbox_array_inv elt (ndim : nat) p s
    (nv : NativeValue native_array) s' :
  unbox_array elt ndim p s = Some (nv, s') →
  ∃ a b, p = Some a ∧ bodies s !! a = Some b ∧ bodies s' = bodies s
    ∧ is_error nv = conversion_fails elt b
    ∧ err s' = if conversion_fails elt b then Some TypeError else err s.
Proof.
  destruct p as [a | ]; simpl; [ | discriminate ].
  intros H. apply bind_inv in H as (ob & s1 & H1 & H2).
  unfold deref in H1. destruct (heap s !! a) as [ob' | ] eqn:Ho;
    [ | discriminate ].
  inversion H1; subst ob' s1. clear H1.
  exists a, (ob_body ob). split; [ reflexivity | ].
  split; [ apply bodies_lookup; eauto | ].
  destruct (ob_body ob) as [nd | cls attrs | cname | dt ].
  - destruct (bool_decide (length (nd_shape nd) = ndim)); [ | discriminate ].
    apply bind_inv in H2 as (u & s2 & H2 & H3).
    apply add_refcnt_inv in H2 as [He Hb].
    apply bind_inv in H3 as (m & s3 & H3 & H4).
    inversion H3; subst m s3. clear H3.
    unfold conversion_fails, itemsize_mismatch. cbn [itemsize] in H4.
    destruct (expected_itemsize elt) as [n | ].
    + destruct (Numpy.itemsize (nd_dtype nd) =? n)%Z; simpl in H4.
      * inversion H4; subst. simpl. auto.
      * apply bind_inv in H4 as (u' & s4 & H4 & H5).
        inversion H4; subst. inversion H5; subst. simpl. auto.
    + inversion H4; subst. simpl. auto.
  - apply bind_inv in H2 as (u & s2 & H2 & H3).
    inversion H2; subst. inversion H3; subst. simpl. auto.
  - apply bind_inv in H2 as (u & s2 & H2 & H3).
    inversion H2; subst. inversion H3; subst. simpl. auto.
  - apply bind_inv in H2 as (u & s2 & H2 & H3).
    inversion H2; subst. inversion H3; subst. simpl. auto.
Qed.

End Inversion.

Section UnboxInversion.

Implicit Types (s : state) (p : ptr) (elt : nb_type).

Lemma err_occurred_inv s (e : option exn) s' :
  err_occurred s = Some (e, s') → e = err s ∧ s' = s.
Proof. intros H. inversion H. auto. Qed.

(** What a run of the unboxer that returned went through: the [value]
    attribute was fetched and is an object; the flag is the error
    indicator; the indicator was set by a failed conversion, else by a
    failed fetch of [layout], else not at all. *)
Lemma unbox_code_inv elt p s (nv : NativeValue MultiVectorStruct) s' :
  unbox_code elt p s = Some (nv, s') →
  ∃ o b a ba,
    p = Some o ∧ bodies s !! o = Some b
    ∧ attrs_of b !! "value" = Some a ∧ bodies s !! a = Some ba
    ∧ is_error nv = is_not_null (err s')
    ∧ err s' = if conversion_fails elt ba then Some TypeError
               else match attrs_of b !! "layout" with
                    | Some _ => err s
                    | None => Some AttributeError
                    end.
Proof.
  unfold unbox_code. intros H.
  apply bind_inv in H as (rv & s1 & H1 & H).
  apply getattr_inv in H1 as (o & b & -> & Hb & Hb1 & Hrv & He1).
  apply bind_inv in H as (rl & s2 & H2 & H).
  apply getattr_inv in H2 as (o' & b' & Ho' & Hb' & Hb2 & Hrl & He2).
  inversion Ho'; subst o'. clear Ho'.
  rewrite Hb1, Hb in Hb'. inversion Hb'; subst b'. clear Hb'.
  apply bind_inv in H as (l & s2' & H3 & H).
  apply ret_inv in H3 as [-> ->].
  apply bind_inv in H as (v & s3 & H4 & H).
  apply unbox_array_inv in H4 as (a & ba & Hrv' & Hba & Hb3 & Hflag & He3).
  apply bind_inv in H as (u & s4 & H5 & H).
  apply decref_inv in H5 as [He4 Hb4].
  apply bind_inv in H as (u' & s5 & H6 & H).
  apply decref_inv in H6 as [He5 Hb5].
  apply bind_inv in H as (e & s6 & H7 & H).
  apply err_occurred_inv in H7 as [-> ->].
  apply ret_inv in H as [-> ->]. simpl.
  exists o, b, a, ba. split; [ reflexivity | ]. split; [ exact Hb | ].
  split; [ congruence | ]. split; [ congruence | ].
  split; [ reflexivity | ].
  rewrite He5, He4, He3.
  destruct (conversion_fails elt ba); [ reflexivity | ].
  rewrite He2, <- Hrl.
  destruct rl; [ | reflexivity ].
  rewrite He1, Hrv'. reflexivity.
Qed.

Lemma fetch_fails_true s (obj : addr) (attr : string) :
  fetch_fails s obj attr = true ↔
  ∃ b, bodies s !! obj = Some b ∧ attrs_of b !! attr = None.
Proof.
  unfold fetch_fails. destruct (bodies s !! obj) as [b | ].
  - rewrite bool_decide_eq_true. split; [ eauto | ].
    intros (b' & E & H). inversion E; subst. exact H.
  - split; [ discriminate | intros (b' & E & _); discriminate ].
Qed.

(** The unboxer alone, on an object without [value]: the null result of
    the fetch goes to the array unboxer, which dereferences it.  Such an
    object does not get this far: see [pass_argument]. *)
Lemma unbox_code_without_value elt s (obj : addr) :
  fetch_fails s obj "value" = true → unbox_code elt (Some obj) s = None.
Proof.
  intros H. apply fetch_fails_true in H as (b & Hb & Hv).
  destruct (unbox_code elt (Some obj) s) as [ [nv s'] | ] eqn:Hrun;
    [ | reflexivity ].
  apply unbox_code_inv in Hrun as (o & b' & a & ba & Ho & Hb' & Ha & _).
  inversion Ho; subst o. congruence.
Qed.

End UnboxInversion.




(* ===================================================================== *)
(** ** Further properties of the registered functions *)
(* ===================================================================== *)

Section TypingFacts.

(** [from_dtype] undoes [as_dtype]. *)
Lemma from_dtype_as_dtype (t : nb_type) (d : Numpy.dtype) :
  as_dtype t = Return d → from_dtype d = Return t.
Proof.
  destruct t as [ | [ | ] w | [ | ] | [ | ] | | | | | ]; simpl;
    intros H; inversion H; reflexivity.
Qed.

(** The instance the constructor makes for a dtype. *)
Lemma MultiVectorType_init_of_dtype (T : MultiVectorType) (elt : nb_type) :
  from_dtype (dtype T) = Return elt →
  name T = "MultiVector[" ++ repr elt ++ "]" →
  MultiVectorType_init (ArgDtype (dtype T)) = Return T.
Proof.
  intros Hd Hn. unfold MultiVectorType_init. simpl. rewrite Hd. simpl.
  rewrite <- Hn. destruct T; reflexivity.
Qed.

(** The machine type of a scalar element type. *)
Lemma member_data_type_scalar (d : Numpy.dtype) (elt : nb_type) :
  from_dtype d = Return elt → ∃ e, member_data_type elt = Return e.
Proof.
  destruct d as [ | w | w | [ | | ] | [ | | ] | ]; simpl;
    intros H; inversion H; simpl; eauto.
Qed.

End TypingFacts.

(** X1: a multivector rebuilt in compiled code from the attributes of a
    multivector has that multivector's type.  For a constructed type [T],
    the types of [.layout] and [.value] are accepted by the typer of the
    constructor, and the result is [T] again; so is the result for any
    array of the same element type, whatever its rank and layout (the
    result of array arithmetic on [.value]). *)
Theorem typer_of_own_attributes (a : py_arg) (T : MultiVectorType) :
  MultiVectorType_init a = Return T →
  ∃ lt elt,
    resolve_getattr T "layout" = Return (Some lt)
    ∧ resolve_getattr T "value" = Return (Some (Array elt 1 LayoutA))
    ∧ typer lt (Array elt 1 LayoutA) = Return (Some (MultiVector T))
    ∧ ∀ ndim l, typer lt (Array elt ndim l) = Return (Some (MultiVector T)).
Proof.
  intros H. apply MultiVectorType_init_inv in H as (_ & elt & Hd & Hn).
  pose proof (members_of_dtype _ _ Hd) as Hm.
  assert (Hty : ∀ ndim l,
            typer LayoutType (Array elt ndim l) = Return (Some (MultiVector T))).
  { intros ndim l. unfold typer. rewrite (as_dtype_from_dtype _ _ Hd). simpl.
    rewrite (MultiVectorType_init_of_dtype _ _ Hd Hn). reflexivity. }
  exists LayoutType, elt. split; [ | split; [ | split ] ].
  - unfold resolve_getattr. rewrite find_wrapper_layout, Hm. reflexivity.
  - unfold resolve_getattr. rewrite find_wrapper_value, Hm. reflexivity.
  - apply Hty.
  - exact Hty.
Qed.

Lemma typer_of_own_attributes_witness :
  ∃ lt elt,
    resolve_getattr Example.float64_mv "layout" = Return (Some lt)
    ∧ resolve_getattr Example.float64_mv "value"
      = Return (Some (Array elt 1 LayoutA))
    ∧ typer lt (Array elt 1 LayoutA)
      = Return (Some (MultiVector Example.float64_mv))
    ∧ ∀ ndim l, typer lt (Array elt ndim l)
                = Return (Some (MultiVector Example.float64_mv)).
Proof.
  exact (typer_of_own_attributes (ArgDtype (dt_float F64)) Example.float64_mv
           eq_refl).
Defined.

Section TypeofFacts.

Implicit Types (s : state) (obj : addr).

(** The type computation is the constructor applied to what
    [val.value.dtype] evaluates to. *)
Lemma typeof_of_value_dtype s obj (d : Numpy.dtype) :
  value_dtype s obj = Some d →
  _typeof_MultiVector s obj = MultiVectorType_init (ArgDtype d).
Proof.
  unfold value_dtype, bodies, _typeof_MultiVector, host_getattr, host_dtype.
  rewrite lookup_fmap.
  destruct (heap s !! obj) as [o | ]; simpl; [ | discriminate ].
  destruct (attrs_of (ob_body o) !! "value") as [a | ]; simpl;
    [ | discriminate ].
  rewrite lookup_fmap.
  destruct (heap s !! a) as [oa | ]; simpl; [ | discriminate ].
  destruct (ob_body oa) as [nd | cls attrs | cname | dt ]; simpl;
    try discriminate.
  - intros H. inversion H. reflexivity.
  - destruct (attrs !! "dtype") as [v | ]; simpl; [ | discriminate ].
    rewrite lookup_fmap.
    destruct (heap s !! v) as [ov | ]; simpl; [ | discriminate ].
    destruct (ob_body ov); try discriminate.
    intros H. inversion H. reflexivity.
Qed.

Lemma typeof_returns_value_dtype s obj (T : MultiVectorType) :
  _typeof_MultiVector s obj = Return T → ∃ d, value_dtype s obj = Some d.
Proof.
  unfold value_dtype, bodies, _typeof_MultiVector, host_getattr, host_dtype.
  rewrite lookup_fmap.
  destruct (heap s !! obj) as [o | ]; simpl; [ | discriminate ].
  destruct (attrs_of (ob_body o) !! "value") as [a | ]; simpl;
    [ | discriminate ].
  rewrite lookup_fmap.
  destruct (heap s !! a) as [oa | ]; simpl; [ | discriminate ].
  destruct (ob_body oa) as [nd | cls attrs | cname | dt ]; simpl;
    try discriminate.
  - eauto.
  - destruct (attrs !! "dtype") as [v | ]; simpl; [ | discriminate ].
    rewrite lookup_fmap.
    destruct (heap s !! v) as [ov | ]; simpl; [ | discriminate ].
    destruct (ob_body ov); simpl; try discriminate. eauto.
Qed.

End TypeofFacts.

(** X2: what the dispatcher's type computation does with a host object.
    It evaluates [val.value.dtype] and nothing else: it returns a type
    exactly when that expression gives a numpy dtype the framework
    supports, whether or not the value is an array, and the type is then
    the one of that dtype.  It raises [AttributeError] when the object has
    no [value] or the value has no [dtype], [AssertionError] when the
    value's [dtype] is not a numpy dtype, and [NotImplementedError] when
    it is a dtype the framework does not support.  A value that is not an
    array but carries a supported dtype (a numpy scalar) is therefore
    typed; the unboxer then fails on it, with its flag set. *)
Theorem typeof_outcomes (s : state) (obj : addr) :
  (∀ T, _typeof_MultiVector s obj = Return T ↔
        ∃ d elt, value_dtype s obj = Some d
                 ∧ from_dtype d = Return elt
                 ∧ T = {| dtype := d;
                          name := "MultiVector[" ++ repr elt ++ "]" |})
  ∧ (fetch_fails s obj "value" = true →
     _typeof_MultiVector s obj = Raise AttributeError)
  ∧ (∀ b a cls attrs,
       bodies s !! obj = Some b → attrs_of b !! "value" = Some a →
       bodies s !! a = Some (OInstance cls attrs) →
       attrs !! "dtype" = None →
       _typeof_MultiVector s obj = Raise AttributeError)
  ∧ (∀ b a cls attrs v bv,
       bodies s !! obj = Some b → attrs_of b !! "value" = Some a →
       bodies s !! a = Some (OInstance cls attrs) →
       attrs !! "dtype" = Some v → bodies s !! v = Some bv →
       (∀ d, bv ≠ ODtype d) →
       _typeof_MultiVector s obj = Raise AssertionError)
  ∧ (∀ d, value_dtype s obj = Some d →
       (∀ t, from_dtype d ≠ Return t) →
       _typeof_MultiVector s obj = Raise NotImplementedError)
  ∧ (∀ d nv s',
       value_dtype s obj = Some d → host_value s obj = None →
       pass_argument s obj = Unboxed nv s' →
       is_error nv = true ∧ err s' = Some TypeError).
Proof.
  split; [ | split; [ | split; [ | split; [ | split ] ] ] ].
  - intros T. split.
    + intros H. destruct (typeof_returns_value_dtype _ _ _ H) as [d Hd].
      rewrite (typeof_of_value_dtype _ _ _ Hd) in H.
      apply MultiVectorType_init_inv in H as (E & elt & Hf & Hn).
      inversion E as [Hdt]. exists d, elt.
      split; [ exact Hd | ]. split; [ rewrite Hdt; exact Hf | ].
      rewrite Hdt, <- Hn. destruct T; reflexivity.
    + intros (d & elt & Hv & Hd & ->).
      rewrite (typeof_of_value_dtype _ _ _ Hv). unfold MultiVectorType_init.
      simpl. rewrite Hd. reflexivity.
  - intros H. apply fetch_fails_true in H as (b & Hb & Hv).
    apply bodies_lookup in Hb as (o & Ho & <-).
    unfold _typeof_MultiVector, host_getattr. rewrite Ho, Hv. reflexivity.
  - intros b a cls attrs Hb Ha Hinst Hnone.
    apply bodies_lookup in Hb as (o & Ho & <-).
    apply bodies_lookup in Hinst as (oa & Hoa & Hbody).
    unfold _typeof_MultiVector, host_getattr, host_dtype.
    rewrite Ho, Ha. simpl. rewrite Hoa, Hbody, Hnone. reflexivity.
  - intros b a cls attrs v bv Hb Ha Hinst Hsome Hbv Hnot.
    apply bodies_lookup in Hb as (o & Ho & <-).
    apply bodies_lookup in Hinst as (oa & Hoa & Hbody).
    apply bodies_lookup in Hbv as (ov & Hov & <-).
    unfold _typeof_MultiVector, host_getattr, host_dtype.
    rewrite Ho, Ha. simpl. rewrite Hoa, Hbody, Hsome, Hov.
    destruct (ob_body ov) as [ | | | d ]; try reflexivity.
    destruct (Hnot d). reflexivity.
  - intros d Hv Hno. rewrite (typeof_of_value_dtype _ _ _ Hv).
    unfold MultiVectorType_init. simpl.
    destruct (from_dtype d) as [t | e] eqn:Hd.
    + destruct (Hno t). reflexivity.
    + simpl. rewrite (from_dtype_raises _ _ Hd). reflexivity.
  - intros d nv s' Hv Hnoarr Hpass. unfold pass_argument in Hpass.
    destruct (_typeof_MultiVector s obj) as [T | e]; [ | discriminate ].
    destruct (unbox_MultiVector T) as [code | e] eqn:Hcode; [ | discriminate ].
    destruct (code (Some obj) s) as [ [nv0 s0] | ] eqn:Hrun; [ | discriminate ].
    inversion Hpass; subst nv0 s0. clear Hpass.
    apply unbox_MultiVector_code in Hcode as (elt & Hd & ->).
    apply unbox_code_inv in Hrun
      as (o & b & a & ba & Ho & Hb & Ha & Hba & Hflag & He).
    inversion Ho; subst o. clear Ho.
    assert (Hcf : conversion_fails elt ba = true).
    { destruct ba as [nd | cls attrs | cname | dt ]; try reflexivity.
      assert (host_value s obj = Some nd) as Hc; [ | congruence ].
      apply host_value_Some. eauto. }
    rewrite Hcf in He. rewrite Hflag, He. split; reflexivity.
Qed.

Lemma typeof_outcomes_witness :
  _typeof_MultiVector Example.world Example.e1_addr
  = Return Example.float64_mv
  ∧ _typeof_MultiVector Example.world Example.blank_addr
    = Raise AttributeError
  ∧ _typeof_MultiVector Edge.wide_world Edge.wide_mv_addr
    = Raise NotImplementedError
  ∧ _typeof_MultiVector Edge.scalar_world Edge.scalar_mv_addr
    = Return Example.float64_mv
  ∧ ∃ nv s',
      pass_argument Edge.scalar_world Edge.scalar_mv_addr = Unboxed nv s'
      ∧ is_error nv = true ∧ err s' = Some TypeError.
Proof.
  split; [ | split; [ | split; [ | split ] ] ].
  - apply (proj1 (typeof_outcomes Example.world Example.e1_addr)).
    exists (dt_float F64), (Float NF64).
    split; [ vm_compute; reflexivity | split; reflexivity ].
  - apply (proj1 (proj2 (typeof_outcomes Example.world Example.blank_addr))).
    vm_compute. reflexivity.
  - apply (proj1 (proj2 (proj2 (proj2 (proj2
             (typeof_outcomes Edge.wide_world Edge.wide_mv_addr)))))
             (dt_float FLong)).
    + vm_compute. reflexivity.
    + intros t. discriminate.
  - apply (proj1 (typeof_outcomes Edge.scalar_world Edge.scalar_mv_addr)).
    exists (dt_float F64), (Float NF64).
    split; [ vm_compute; reflexivity | split; reflexivity ].
  - eexists _, _. split; [ vm_compute; reflexivity | ].
    eapply (proj2 (proj2 (proj2 (proj2 (proj2
              (typeof_outcomes Edge.scalar_world Edge.scalar_mv_addr)))))
              (dt_float F64));
      [ vm_compute; reflexivity | vm_compute; reflexivity
      | vm_compute; reflexivity ].
Defined.

(** X3: the glue never fails to generate code for a type that exists.
    For every constructed [MultiVectorType] the struct model has its
    members and an unboxer and a boxer are generated; for a type record of
    a dtype the framework does not support, the member type cannot be
    computed and neither converter is generated ([NotImplementedError]). *)
Theorem constructed_type_lowers :
  (∀ a T, MultiVectorType_init a = Return T →
     (∃ ms, MultiVectorModel_members T = Return ms)
     ∧ (∃ unbox, unbox_MultiVector T = Return unbox)
     ∧ (∃ box, box_MultiVector T = Return box))
  ∧ (∀ T, (∀ t, from_dtype (dtype T) ≠ Return t) →
       value_type T = Raise NotImplementedError
       ∧ MultiVectorModel_members T = Raise NotImplementedError
       ∧ unbox_MultiVector T = Raise NotImplementedError
       ∧ box_MultiVector T = Raise NotImplementedError).
Proof.
  split.
  - intros a T H. apply MultiVectorType_init_inv in H as (_ & elt & Hd & _).
    split; [ | split ].
    + eexists. apply (members_of_dtype _ _ Hd).
    + eexists. apply (unbox_MultiVector_returns _ _ Hd).
    + eexists. apply box_MultiVector_returns. eauto.
  - intros T Hno.
    assert (Hv : value_type T = Raise NotImplementedError).
    { unfold value_type. destruct (from_dtype (dtype T)) as [t | e] eqn:Hd.
      - destruct (Hno t). reflexivity.
      - simpl. rewrite (from_dtype_raises _ _ Hd). reflexivity. }
    split; [ exact Hv | ].
    unfold MultiVectorModel_members, unbox_MultiVector, box_MultiVector.
    rewrite Hv. repeat split.
Qed.

Lemma constructed_type_lowers_witness :
  ((∃ ms, MultiVectorModel_members Example.float64_mv = Return ms)
   ∧ (∃ unbox, unbox_MultiVector Example.float64_mv = Return unbox)
   ∧ (∃ box, box_MultiVector Example.float64_mv = Return box))
  ∧ unbox_MultiVector {| dtype := dt_float FLong; name := "MultiVector[?]" |}
    = Raise NotImplementedError.
Proof.
  split.
  - apply (proj1 constructed_type_lowers (ArgDtype (dt_float F64))).
    reflexivity.
  - apply (proj2 constructed_type_lowers
             {| dtype := dt_float FLong; name := "MultiVector[?]" |}).
    intros t. discriminate.
Defined.

Section TypedCalls.

(** What the typer's success says about its array argument. *)
Lemma typer_inv (elt : nb_type) (ndim : nat) (lay : array_layout) (R : nb_type) :
  typer LayoutType (Array elt ndim lay) = Return (Some R) →
  ∃ T e, R = MultiVector T ∧ from_dtype (dtype T) = Return elt
         ∧ member_data_type elt = Return e.
Proof.
  unfold typer. destruct (as_dtype elt) as [d | x] eqn:Hd; [ | discriminate ].
  simpl. destruct (MultiVectorType_init (ArgDtype d)) as [T | x] eqn:HT;
    [ | discriminate ].
  simpl. intros H. inversion H; subst R. clear H.
  apply MultiVectorType_init_inv in HT as (E & _). inversion E; subst d.
  apply from_dtype_as_dtype in Hd.
  destruct (member_data_type_scalar _ _ Hd) as [e He]. eauto.
Qed.

(** The lowering of the constructor, by the rank of the array argument. *)
Lemma impl_MultiVector_by_rank (T : MultiVectorType) (elt : nb_type)
    (e : ll_type) (ndim : nat) (lay : array_layout) :
  from_dtype (dtype T) = Return elt →
  member_data_type elt = Return e →
  impl_MultiVector {| return_type := MultiVector T;
                      args := [LayoutType; Array elt ndim lay] |}
  = if bool_decide (ndim = 1)
    then Return (λ '(l, v), impl_ret_borrowed {| layout := l; value := v |})
    else Raise TypeError.
Proof.
  intros Hd He. unfold impl_MultiVector. simpl.
  rewrite (members_of_dtype _ _ Hd). simpl.
  unfold check_store. simpl. rewrite He. simpl.
  destruct (decide (ndim = 1)) as [-> | Hne].
  - rewrite !bool_decide_eq_true_2 by reflexivity. reflexivity.
  - rewrite !bool_decide_eq_false_2 by congruence. reflexivity.
Qed.

End TypedCalls.

(** X4: typing and lowering of the constructor agree on arrays of rank
    one.  Whenever the typer accepts [MultiVector(layout, value)] for a
    one-dimensional array, of any layout, the lowering accepts the
    signature the typer produced and generates code for the call. *)
Theorem lowering_accepts_typed_call (elt : nb_type) (lay : array_layout)
    (R : nb_type) :
  typer LayoutType (Array elt 1 lay) = Return (Some R) →
  ∃ code, impl_MultiVector {| return_type := R;
                              args := [LayoutType; Array elt 1 lay] |}
          = Return code.
Proof.
  intros H. apply typer_inv in H as (T & e & -> & Hd & He).
  rewrite (impl_MultiVector_by_rank _ _ _ _ _ Hd He). simpl. eauto.
Qed.

Lemma lowering_accepts_typed_call_witness :
  ∃ code, impl_MultiVector
            {| return_type := MultiVector Example.float64_mv;
               args := [LayoutType; Array (Float NF64) 1 LayoutC] |}
          = Return code.
Proof.
  exact (lowering_accepts_typed_call (Float NF64) LayoutC
           (MultiVector Example.float64_mv) eq_refl).
Defined.

(** X5: the typer does not look at the rank of the array, the struct
    does.  For an array of any other rank than one the typer still gives
    the call a type, but the lowering raises [TypeError] when it stores
    the array into the [value] member, whose type is one-dimensional: the
    call fails when code is generated, not at type inference. *)
Theorem lowering_refuses_other_ranks (elt : nb_type) (ndim : nat)
    (lay : array_layout) (R : nb_type) :
  ndim ≠ 1 →
  typer LayoutType (Array elt ndim lay) = Return (Some R) →
  impl_MultiVector {| return_type := R;
                      args := [LayoutType; Array elt ndim lay] |}
  = Raise TypeError.
Proof.
  intros Hne H. apply typer_inv in H as (T & e & -> & Hd & He).
  rewrite (impl_MultiVector_by_rank _ _ _ _ _ Hd He).
  rewrite bool_decide_eq_false_2 by exact Hne. reflexivity.
Qed.

Lemma lowering_refuses_other_ranks_witness :
  typer LayoutType (Array (Float NF64) 2 LayoutC)
  = Return (Some (MultiVector Example.float64_mv))
  ∧ impl_MultiVector
      {| return_type := MultiVector Example.float64_mv;
         args := [LayoutType; Array (Float NF64) 2 LayoutC] |}
    = Raise TypeError.
Proof.
  split; [ reflexivity | ].
  apply (lowering_refuses_other_ranks (Float NF64) 2 LayoutC
           (MultiVector Example.float64_mv)); [ discriminate | reflexivity ].
Defined.

(** X6: the flag of the unboxer is the host error indicator, whatever set
    it.  For any run of the generated unboxer that returns, [is_error] is
    set exactly when an error was already pending on entry, or fetching
    [layout] failed, or converting [value] failed; the unboxer never
    clears a pending error. *)
Theorem unbox_flag_is_indicator (T : MultiVectorType)
    (code : ptr → M (NativeValue MultiVectorStruct)) (elt : nb_type)
    (obj : addr) (s : state) (nv : NativeValue MultiVectorStruct) (s' : state) :
  unbox_MultiVector T = Return code →
  from_dtype (dtype T) = Return elt →
  code (Some obj) s = Some (nv, s') →
  is_error nv = is_not_null (err s')
  ∧ (is_error nv = true ↔
       err s ≠ None
       ∨ fetch_fails s obj "layout" = true
       ∨ convert_fails s obj elt = true)
  ∧ (err s ≠ None → err s' ≠ None).
Proof.
  intros Hcode Hd Hrun.
  apply unbox_MultiVector_code in Hcode as (elt' & Hd' & ->).
  rewrite Hd in Hd'. inversion Hd'; subst elt'. clear Hd'.
  apply unbox_code_inv in Hrun
    as (o & b & a & ba & Ho & Hb & Ha & Hba & Hflag & He).
  inversion Ho; subst o. clear Ho.
  split; [ exact Hflag | ].
  unfold fetch_fails, convert_fails. rewrite Hb, Ha, Hba, Hflag, He.
  destruct (conversion_fails elt ba);
    destruct (attrs_of b !! "layout") as [l | ]; simpl;
    try rewrite (bool_decide_eq_false_2 (Some l = None)) by discriminate;
    try rewrite (bool_decide_eq_true_2 (None = None)) by reflexivity;
    destruct (err s) as [e | ]; simpl;
    (split; [ split; [ intros H; auto | intros H; try reflexivity ]
            | intros H; try discriminate; try (exfalso; apply H; reflexivity) ]);
    try discriminate;
    try (left; discriminate);
    try (destruct H as [H | [H | H] ]; try discriminate;
         exfalso; apply H; reflexivity).
Qed.

Lemma unbox_flag_is_indicator_witness :
  let s := set_err (Some SystemError) Example.world in
  ∃ nv s',
    unbox_code (Float NF64) (Some Example.e1_addr) s = Some (nv, s')
    ∧ is_error nv = is_not_null (err s')
    ∧ (is_error nv = true ↔
         err s ≠ None
         ∨ fetch_fails s Example.e1_addr "layout" = true
         ∨ convert_fails s Example.e1_addr (Float NF64) = true)
    ∧ (err s ≠ None → err s' ≠ None).
Proof.
  intros s. eexists _, _. split; [ vm_compute; reflexivity | ].
  apply (unbox_flag_is_indicator Example.float64_mv
           (unbox_code (Float NF64)) (Float NF64) Example.e1_addr s);
    [ reflexivity | reflexivity | vm_compute; reflexivity ].
Defined.

Section RankFacts.

Implicit Types (s : state) (elt : nb_type).

(** A conversion of an array object that returned found the rank of the
    compiled type. *)
Lemma unbox_array_rank elt (ndim : nat) (a : addr) s (nd : ndarray)
    (nv : NativeValue native_array) s' :
  unbox_array elt ndim (Some a) s = Some (nv, s') →
  bodies s !! a = Some (ONdarray nd) →
  length (nd_shape nd) = ndim.
Proof.
  intros H Hnd. apply bodies_lookup in Hnd as (o & Ho & Hbody).
  simpl in H. apply bind_inv in H as (o' & s1 & H1 & H2).
  unfold deref in H1. rewrite Ho in H1. inversion H1; subst o' s1. clear H1.
  rewrite Hbody in H2.
  destruct (decide (length (nd_shape nd) = ndim)) as [E | E]; [ exact E | ].
  rewrite bool_decide_eq_false_2 in H2 by exact E. discriminate.
Qed.

Lemma unbox_code_rank elt (obj a : addr) (b : body) (nd : ndarray) s
    (nv : NativeValue MultiVectorStruct) s' :
  unbox_code elt (Some obj) s = Some (nv, s') →
  bodies s !! obj = Some b →
  attrs_of b !! "value" = Some a →
  bodies s !! a = Some (ONdarray nd) →
  length (nd_shape nd) = 1.
Proof.
  unfold unbox_code. intros H Hb Ha Hnd.
  apply bind_inv in H as (rv & s1 & H1 & H).
  apply getattr_inv in H1 as (o & b' & Ho & Hb' & Hb1 & Hrv & _).
  inversion Ho; subst o. clear Ho.
  rewrite Hb in Hb'. inversion Hb'; subst b'. clear Hb'.
  rewrite Ha in Hrv. subst rv.
  apply bind_inv in H as (rl & s2 & H2 & H).
  apply getattr_inv in H2 as (o' & b' & _ & _ & Hb2 & _ & _).
  apply bind_inv in H as (l & s2' & H3 & H).
  apply ret_inv in H3 as [-> ->].
  apply bind_inv in H as (v & s3 & H4 & _).
  apply (unbox_array_rank _ _ _ _ nd) in H4; [ exact H4 | ].
  rewrite Hb2, Hb1. exact Hnd.
Qed.

End RankFacts.

(** X7: the rank of the coefficient array is not part of the type, and is
    not checked.  The dispatcher types a host object by the dtype of its
    [value] alone, and the unboxer converts that array to the
    one-dimensional array type of the struct; for a host object whose
    coefficient array has a supported dtype but another rank than one, the
    type computation succeeds and the behaviour of the unboxer is
    undefined: no error is raised. *)
Theorem unchecked_rank_is_undefined (s : state) (obj : addr) (nd : ndarray)
    (elt : nb_type) :
  host_value s obj = Some nd →
  from_dtype (nd_dtype nd) = Return elt →
  length (nd_shape nd) ≠ 1 →
  (∃ T, _typeof_MultiVector s obj = Return T)
  ∧ pass_argument s obj = Undefined.
Proof.
  intros Hv Hd Hrank.
  assert (Hty : _typeof_MultiVector s obj
                = Return {| dtype := nd_dtype nd;
                            name := "MultiVector[" ++ repr elt ++ "]" |}).
  { rewrite (typeof_of_value _ _ _ Hv). unfold MultiVectorType_init. simpl.
    rewrite Hd. reflexivity. }
  split; [ eauto | ].
  unfold pass_argument. rewrite Hty.
  rewrite (unbox_MultiVector_returns _ elt) by exact Hd.
  destruct (unbox_code elt (Some obj) s) as [ [nv s'] | ] eqn:Hrun;
    [ | reflexivity ].
  apply host_value_Some in Hv as (b & a & Hb & Ha & Hnd).
  destruct Hrank. eapply unbox_code_rank; eassumption.
Qed.

Lemma unchecked_rank_is_undefined_witness :
  (∃ T, _typeof_MultiVector Edge.world Edge.mv_addr = Return T)
  ∧ pass_argument Edge.world Edge.mv_addr = Undefined.
Proof.
  apply (unchecked_rank_is_undefined Edge.world Edge.mv_addr Edge.matrix
           (Float NF64)).
  - vm_compute. reflexivity.
  - reflexivity.
  - discriminate.
Defined.

Section ReferenceCounts.

Implicit Types (s : state) (a x : addr).

Lemma refcount_add_refcnt (d : Z) a s x :
  is_Some (bodies s !! a) →
  refcount (set_heap (alter (add_refcnt d) a) s) x
  = (refcount s x + d * one_if (x = a))%Z.
Proof.
  intros [b Hb]. apply bodies_lookup in Hb as (o & Ho & _).
  unfold refcount, one_if. simpl. rewrite lookup_alter.
  destruct (decide (a = x)) as [-> | Hne].
  - rewrite Ho. simpl. rewrite decide_True by reflexivity. lia.
  - rewrite decide_False by congruence. lia.
Qed.

Lemma refcount_alloc a (b : body) s x :
  bodies s !! a = None →
  refcount (set_heap (insert a {| ob_refcnt := 1; ob_body := b |}) s) x
  = (refcount s x + one_if (x = a))%Z.
Proof.
  intros Hn. apply bodies_lookup_None in Hn.
  unfold refcount, one_if. simpl. rewrite lookup_insert.
  destruct (decide (a = x)) as [-> | Hne].
  - rewrite Hn. simpl. rewrite decide_True by reflexivity. reflexivity.
  - rewrite decide_False by congruence. lia.
Qed.

Lemma refcount_of_heap s s' x : heap s' = heap s → refcount s' x = refcount s x.
Proof. unfold refcount. intros ->. reflexivity. Qed.

Lemma refcount_set_err e s x : refcount (set_err e s) x = refcount s x.
Proof. reflexivity. Qed.

Lemma refcount_set_nrt f s x : refcount (set_nrt f s) x = refcount s x.
Proof. reflexivity. Qed.

End ReferenceCounts.

Section UnboxRun.

Implicit Types (s : state) (elt : nb_type).

(** The run of the unboxer on an object whose [value] is an array of rank
    one and of the expected item size, with the state it ends in. *)
Lemma unbox_code_run elt (o a : addr) (b : body) (nd : ndarray) s :
  bodies s !! o = Some b →
  attrs_of b !! "value" = Some a →
  bodies s !! a = Some (ONdarray nd) →
  length (nd_shape nd) = 1 →
  expected_itemsize elt = Some (Numpy.itemsize (nd_dtype nd)) →
  match attrs_of b !! "layout" with
  | Some l => is_Some (bodies s !! l)
  | None => True
  end →
  ∃ m nv,
    nrt s !! m = None
    ∧ nv_value nv = {| layout := attrs_of b !! "layout";
                       value := native_of a nd m |}
    ∧ unbox_code elt (Some o) s
      = Some (nv, unboxed_state s a (attrs_of b !! "layout") m).
Proof.
  intros Hb Ha Hnd Hrank Hsize Hl.
  assert (Hwp : wp (unbox_code elt (Some o)) s
            (λ nv s', ∃ m, nrt s !! m = None
               ∧ nv_value nv = {| layout := attrs_of b !! "layout";
                                  value := native_of a nd m |}
               ∧ s' = unboxed_state s a (attrs_of b !! "layout") m)).
  { unfold unbox_code.
    apply wp_bind. eapply wp_getattr_found; [ exact Hb | exact Ha | eauto | ].
    destruct (attrs_of b !! "layout") as [l | ] eqn:Hlay.
    - apply wp_bind.
      eapply wp_getattr_found;
        [ simpl_state; exact Hb | exact Hlay | simpl_state; exact Hl | ].
      apply wp_bind, wp_ret. apply wp_bind.
      eapply wp_mono;
        [ apply (wp_unbox_array elt 1 a nd);
          [ simpl_state; exact Hnd | exact Hrank | exact Hsize ] | ].
      intros nv s3 (m & Hm & -> & ->).
      apply wp_bind, wp_decref; [ simpl_state; eauto | ].
      apply wp_bind, wp_decref; [ simpl_state; exact Hl | ].
      apply wp_bind, wp_err_occurred. apply wp_ret.
      exists m. split; [ exact Hm | ]. split; reflexivity.
    - apply wp_bind.
      eapply wp_getattr_missing; [ simpl_state; exact Hb | exact Hlay | ].
      apply wp_bind, wp_ret. apply wp_bind.
      eapply wp_mono;
        [ apply (wp_unbox_array elt 1 a nd);
          [ simpl_state; exact Hnd | exact Hrank | exact Hsize ] | ].
      intros nv s3 (m & Hm & -> & ->).
      apply wp_bind, wp_decref; [ simpl_state; eauto | ].
      apply wp_bind, wp_decref_null.
      apply wp_bind, wp_err_occurred. apply wp_ret.
      exists m. split; [ exact Hm | ]. split; reflexivity. }
  destruct Hwp as (nv & s' & Hrun & m & Hm & Hnv & ->).
  exists m, nv. auto.
Qed.

(** The reference counts in the state the unboxer ends in. *)
Lemma refcount_unboxed_state s (a : addr) (lay : ptr) (m x : addr) :
  is_Some (bodies s !! a) →
  match lay with Some l => is_Some (bodies s !! l) | None => True end →
  refcount (unboxed_state s a lay m) x = (refcount s x + one_if (x = a))%Z.
Proof.
  intros Ha Hl. unfold unboxed_state. destruct lay as [l | ].
  - rewrite refcount_add_refcnt by (simpl_state; exact Hl).
    rewrite refcount_add_refcnt by (simpl_state; exact Ha).
    rewrite refcount_set_nrt.
    rewrite refcount_add_refcnt by (simpl_state; exact Ha).
    rewrite refcount_add_refcnt by (simpl_state; exact Hl).
    rewrite refcount_add_refcnt by exact Ha. lia.
  - rewrite refcount_add_refcnt by (simpl_state; exact Ha).
    rewrite refcount_set_nrt.
    rewrite refcount_add_refcnt by (simpl_state; exact Ha).
    rewrite refcount_set_err.
    rewrite refcount_add_refcnt by exact Ha. lia.
Qed.

End UnboxRun.

(** X8: the unboxer releases the references it takes.  On a host object
    whose [value] is a one-dimensional array of the type's dtype (and whose
    [layout], if it has one, is alive), the generated unboxer returns, and
    afterwards every host object has the reference count it had before,
    except the coefficient array, which has one more: the reference that
    the native array holds on the object it came from.  The references
    taken by fetching [value] and [layout] were given back. *)
Theorem unbox_balances_references (T : MultiVectorType)
    (code : ptr → M (NativeValue MultiVectorStruct))
    (obj a : addr) (b : body) (nd : ndarray) (s : state) :
  unbox_MultiVector T = Return code →
  bodies s !! obj = Some b →
  attrs_of b !! "value" = Some a →
  bodies s !! a = Some (ONdarray nd) →
  length (nd_shape nd) = 1 →
  nd_dtype nd = dtype T →
  match attrs_of b !! "layout" with
  | Some l => is_Some (bodies s !! l)
  | None => True
  end →
  ∃ nv s',
    code (Some obj) s = Some (nv, s')
    ∧ parent (value (nv_value nv)) = Some a
    ∧ ∀ x, refcount s' x = (refcount s x + one_if (x = a))%Z.
Proof.
  intros Hcode Hb Ha Hnd Hrank Hdt Hl.
  apply unbox_MultiVector_code in Hcode as (elt & Hd & ->).
  destruct (unbox_code_run elt obj a b nd s Hb Ha Hnd Hrank)
    as (m & nv & Hm & Hnv & Hrun); [ | exact Hl | ].
  { rewrite Hdt. apply expected_itemsize_from_dtype, Hd. }
  exists nv, (unboxed_state s a (attrs_of b !! "layout") m).
  split; [ exact Hrun | ]. split; [ rewrite Hnv; reflexivity | ].
  intros x. apply refcount_unboxed_state; [ eauto | exact Hl ].
Qed.

Lemma unbox_balances_references_witness :
  ∃ code, unbox_MultiVector Example.float64_mv = Return code
    ∧ ∃ nv s',
        code (Some Example.e1_addr) Example.world = Some (nv, s')
        ∧ parent (value (nv_value nv)) = Some Example.arr_addr
        ∧ ∀ x, refcount s' x
               = (refcount Example.world x + one_if (x = Example.arr_addr))%Z.
Proof.
  eexists. split; [ reflexivity | ].
  apply (unbox_balances_references Example.float64_mv _ Example.e1_addr
           Example.arr_addr
           (OInstance "MultiVector"
              {[ "layout" := Example.layout_addr; "value" := Example.arr_addr ]})
           Example.e1_array Example.world).
  - reflexivity.
  - vm_compute. reflexivity.
  - vm_compute. reflexivity.
  - vm_compute. reflexivity.
  - reflexivity.
  - reflexivity.
  - eexists. vm_compute. reflexivity.
Defined.

Section BoxCounts.

Implicit Types (s : state) (a : native_array) (descr : Numpy.dtype).

Lemma wp_conj {A} (m : M A) s (Q1 Q2 : A → state → Prop) :
  wp m s Q1 → wp m s Q2 → wp m s (λ x s', Q1 x s' ∧ Q2 x s').
Proof.
  intros (x & s' & H1 & HQ1) (y & s'' & H2 & HQ2).
  assert (E : Some (x, s') = Some (y, s'')) by congruence.
  inversion E; subst y s''. exists x, s'. auto.
Qed.

Lemma wp_new_array_count descr a s :
  nrt_valid s (meminfo a) →
  wp (_ ← nrt_incref (meminfo a);
      n ← py_alloc (ONdarray {| nd_dtype := descr; nd_shape := shape a;
                                nd_strides := strides a; nd_data := data a |});
      mret (Some n)) s (counted_array s).
Proof.
  intros Hv. apply wp_bind, wp_nrt_add; [ exact Hv | ].
  intros s1 Hh Hb He Hg Hn. apply wp_bind, wp_py_alloc. intros o Ho.
  apply wp_ret. exists o. split; [ reflexivity | ]. split; [ | exact Hn ].
  intros x. rewrite refcount_alloc by exact Ho.
  rewrite (refcount_of_heap _ _ _ Hh). reflexivity.
Qed.

Lemma wp_nrt_adapt_count descr (ndim : nat) a s :
  parent_live s a →
  nrt_valid s (meminfo a) →
  wp (nrt_adapt_ndarray_to_python descr ndim a) s (counted_array s).
Proof.
  intros Hp Hv. unfold nrt_adapt_ndarray_to_python, try_to_return_parent.
  unfold parent_live in Hp. destruct (parent a) as [p | ].
  - destruct Hp as [b Hb]. apply wp_bind, wp_bind, (wp_deref _ _ _ _ Hb).
    intros o ->. destruct b as [nd | cls attrs | cname | dt ].
    + destruct (same_array nd descr ndim a) eqn:Hs.
      * apply wp_bind, wp_incref; [ eauto | ]. apply wp_ret, wp_ret.
        exists p. split; [ reflexivity | ]. split; [ | reflexivity ].
        intros x. rewrite refcount_add_refcnt by eauto. lia.
      * apply wp_ret. apply wp_new_array_count, Hv.
    + apply wp_ret. apply wp_new_array_count, Hv.
    + apply wp_ret. apply wp_new_array_count, Hv.
    + apply wp_ret. apply wp_new_array_count, Hv.
  - apply wp_bind, wp_ret. apply wp_new_array_count, Hv.
Qed.

Lemma wp_box_array_count descr (ndim : nat) a s :
  parent_live s a →
  nrt_valid s (meminfo a) →
  wp (box_array descr ndim a) s (counted_array s).
Proof.
  intros Hp Hv. unfold box_array. apply wp_bind.
  eapply wp_mono; [ apply wp_nrt_adapt_count; assumption | ].
  intros r s1 (o & -> & Hc & Hn).
  apply wp_bind, wp_nrt_add; [ eapply nrt_valid_dom; eassumption | ].
  intros s2 Hh Hb He2 Hg2 Hn2. apply wp_ret.
  exists o. split; [ reflexivity | ]. split; [ | congruence ].
  intros x. rewrite (refcount_of_heap _ _ _ Hh). apply Hc.
Qed.

(** The call of the class takes a reference to each argument; the new
    instance has the one reference that is returned. *)
Lemma wp_call_MultiVector_count (c l v : addr) s :
  bodies s !! c = Some (OClass "MultiVector") →
  is_Some (bodies s !! l) →
  is_Some (bodies s !! v) →
  wp (call_function_objargs (Some c) [Some l; Some v]) s
     (λ r s', ∃ o, r = Some o
        ∧ ∀ x, refcount s' x
               = (refcount s x + one_if (x = l) + one_if (x = v)
                  + one_if (x = o))%Z).
Proof.
  intros Hc Hl Hv. unfold call_function_objargs.
  apply wp_bind, (wp_deref _ _ _ _ Hc). intros o ->.
  rewrite bool_decide_eq_true_2 by reflexivity.
  cbn [objargs]. unfold MultiVector_call.
  apply wp_bind, wp_incref; [ exact Hl | ].
  apply wp_bind, wp_incref; [ simpl_state; exact Hv | ].
  apply wp_bind, wp_py_alloc. intros n Hn. apply wp_ret.
  exists n. split; [ reflexivity | ]. intros x.
  rewrite refcount_alloc by exact Hn.
  rewrite refcount_add_refcnt by (simpl_state; exact Hv).
  rewrite refcount_add_refcnt by exact Hl. lia.
Qed.

Lemma wp_box_code_count (T : MultiVectorType) (val : MultiVectorStruct)
    (l : addr) s :
  layout val = Some l →
  is_Some (bodies s !! l) →
  parent_live s (value val) →
  nrt_valid s (meminfo (value val)) →
  class_registered s →
  wp (box_code T val) s (counted_MultiVector s l).
Proof.
  intros Hl Hlive Hp Hv (c & Hg & Hc). unfold box_code. rewrite Hl.
  apply wp_bind. eapply wp_mono.
  { apply wp_conj;
      [ apply (wp_box_array (dtype T) 1); assumption
      | apply (wp_box_array_count (dtype T) 1); assumption ]. }
  intros r s1 ((oa & -> & Harr & G1 & E1 & N1) & (oa' & Eoa & C1 & _)).
  inversion Eoa; subst oa'. clear Eoa.
  pose proof (grows_live _ _ _ G1 Hlive) as Hlive1.
  pose proof (grows_lookup _ _ _ _ G1 Hc) as Hc1.
  assert (Hoa : is_Some (bodies s1 !! oa)).
  { destruct Harr as (nd & H & _). eauto. }
  apply wp_bind. eapply wp_mono; [ apply wp_box_Layout, Hlive1 | ].
  intros r s2 (-> & ->).
  apply wp_bind. eapply wp_mono.
  { apply (wp_unserialize _ c).
    - simpl_state. destruct G1 as (_ & _ & G). rewrite G. exact Hg.
    - simpl_state. eauto. }
  intros r s3 (-> & ->).
  apply wp_bind. eapply wp_mono.
  { apply wp_conj;
      [ apply (wp_call_MultiVector c l oa); simpl_state; assumption
      | apply (wp_call_MultiVector_count c l oa); simpl_state; assumption ]. }
  intros r s4 ((n & -> & Hn & Hb4 & _) & (n' & En & C4)).
  inversion En; subst n'. clear En.
  revert Hn Hb4. simpl_state. intros Hn Hb4.
  assert (Hne : ∀ x, is_Some (bodies s1 !! x) → is_Some (bodies s4 !! x)).
  { intros x [b Hx]. exists b. rewrite Hb4, lookup_insert_ne by congruence.
    exact Hx. }
  apply wp_bind, wp_decref; [ apply Hne; assumption | ].
  apply wp_bind, wp_decref; [ simpl_state; apply Hne; eauto | ].
  apply wp_bind, wp_decref; [ simpl_state; apply Hne; eauto | ].
  apply wp_ret. exists n, oa. split; [ reflexivity | ].
  split; [ simpl_state; rewrite Hb4; apply lookup_insert_eq | ].
  intros x.
  rewrite refcount_add_refcnt by (simpl_state; apply Hne; eauto).
  rewrite refcount_add_refcnt by (simpl_state; apply Hne; eauto).
  rewrite refcount_add_refcnt by (apply Hne; assumption).
  rewrite C4.
  rewrite refcount_add_refcnt by (simpl_state; eauto).
  rewrite refcount_add_refcnt by assumption.
  rewrite C1. lia.
Qed.

End BoxCounts.

(** X9: the boxer releases its temporaries.  When the members of the
    struct are alive, the generated boxer returns a new instance, and
    afterwards the reference counts are those from before plus exactly the
    references that now exist: one on the layout object and one on the
    coefficient array object, both held by the new instance, and the one on
    the new instance that is returned.  The class object and the three
    temporaries ([mv_obj], [class_obj], [layout_obj]) are balanced. *)
Theorem box_balances_references (T : MultiVectorType)
    (code : MultiVectorStruct → M ptr) (val : MultiVectorStruct)
    (l : addr) (s : state) :
  box_MultiVector T = Return code →
  layout val = Some l →
  is_Some (bodies s !! l) →
  parent_live s (value val) →
  nrt_valid s (meminfo (value val)) →
  class_registered s →
  ∃ r mv_obj s',
    code val s = Some (Some r, s')
    ∧ bodies s' !! r
      = Some (OInstance "MultiVector" {[ "layout" := l; "value" := mv_obj ]})
    ∧ ∀ x, refcount s' x
           = (refcount s x + one_if (x = l) + one_if (x = mv_obj)
              + one_if (x = r))%Z.
Proof.
  intros Hcode Hl Hlive Hp Hv Hc.
  apply box_MultiVector_code in Hcode as [_ ->].
  destruct (wp_box_code_count T val l s Hl Hlive Hp Hv Hc)
    as (r & s' & Hrun & o & mv_obj & -> & H).
  exists o, mv_obj, s'. split; [ exact Hrun | exact H ].
Qed.

Lemma box_balances_references_witness :
  let val := {| layout := Some Example.layout_addr;
                value := {| meminfo := None; parent := Some Example.arr_addr;
                            nitems := 4; itemsize := 8;
                            data := Example.buf_addr;
                            shape := [4%Z]; strides := [8%Z] |} |} in
  ∃ code, box_MultiVector Example.float64_mv = Return code
    ∧ ∃ r mv_obj s',
        code val Example.world = Some (Some r, s')
        ∧ bodies s' !! r
          = Some (OInstance "MultiVector"
                    {[ "layout" := Example.layout_addr; "value" := mv_obj ]})
        ∧ ∀ x, refcount s' x
               = (refcount Example.world x + one_if (x = Example.layout_addr)
                  + one_if (x = mv_obj) + one_if (x = r))%Z.
Proof.
  intros val. eexists. split; [ reflexivity | ].
  apply (box_balances_references Example.float64_mv _ val Example.layout_addr
           Example.world).
  - reflexivity.
  - reflexivity.
  - eexists. vm_compute. reflexivity.
  - eexists. vm_compute. reflexivity.
  - exact I.
  - exists Example.cls_addr. split; vm_compute; reflexivity.
Defined.

(** X10: piecewise construction hands on the argument's own layout.  In
    a compiled function that takes a host multivector [a] and builds
    [MultiVector(a.layout, v)] from a native array [v] it computed, the
    layout read from the unboxed argument is the pointer to the host
    object's own layout object, and the struct the constructor returns has
    that pointer as its [layout] member and [v] itself as its [value]
    member; building it touches no host object, buffer or error state. *)
Theorem piecewise_construction_passes_layout (s : state) (obj l : addr)
    (nd : ndarray) (T : MultiVectorType) (elt : nb_type) (lay : array_layout)
    (construct : ptr * native_array → M MultiVectorStruct) :
  _typeof_MultiVector s obj = Return T →
  host_value s obj = Some nd →
  length (nd_shape nd) = 1 →
  host_layout s obj = Some l →
  is_Some (bodies s !! l) →
  from_dtype (dtype T) = Return elt →
  impl_MultiVector {| return_type := MultiVector T;
                      args := [LayoutType; Array elt 1 lay] |}
  = Return construct →
  ∃ unbox read_layout nv s1,
    unbox_MultiVector T = Return unbox
    ∧ lower_getattr T "layout" = Return (Some read_layout)
    ∧ unbox (Some obj) s = Some (nv, s1)
    ∧ read_layout (nv_value nv) s1 = Some (MLayout (Some l), s1)
    ∧ ∀ (v : native_array) (s2 : state),
        nrt_valid s2 (meminfo v) →
        ∃ s3,
          construct (Some l, v) s2
          = Some ({| layout := Some l; value := v |}, s3)
          ∧ heap s3 = heap s2 ∧ bufs s3 = bufs s2 ∧ err s3 = err s2.
Proof.
  intros Hty Hval Hrank Hlay Hlive Hd Hcons.
  rewrite (typeof_of_value _ _ _ Hval) in Hty.
  apply MultiVectorType_init_inv in Hty as (E & _).
  inversion E as [Hdt]. clear E.
  apply host_value_Some in Hval as (b & a & Hb & Ha & Hnd).
  apply host_layout_Some in Hlay as (b' & Hb' & Hl).
  rewrite Hb in Hb'. inversion Hb'; subst b'. clear Hb'.
  assert (Hsize : expected_itemsize elt = Some (Numpy.itemsize (nd_dtype nd))).
  { rewrite Hdt. apply expected_itemsize_from_dtype, Hd. }
  destruct (wp_unbox_code elt obj a b nd s Hb Ha Hnd Hrank Hsize)
    as (nv & s1 & Hunbox & m & Hnv & _).
  { rewrite Hl. exact Hlive. }
  rewrite Hl in Hnv.
  pose proof (members_of_dtype _ _ Hd) as Hm.
  eexists (unbox_code elt), _, nv, s1.
  split; [ apply unbox_MultiVector_returns, Hd | ].
  split.
  { unfold lower_getattr. rewrite find_wrapper_layout.
    unfold struct_getattr_impl. rewrite Hm. reflexivity. }
  split; [ exact Hunbox | ].
  split; [ rewrite Hnv; reflexivity | ].
  intros v s2 Hv. rewrite (impl_MultiVector_code _ _ Hcons).
  assert (Hwp : wp (impl_ret_borrowed {| layout := Some l; value := v |}) s2
            (λ mv s3, mv = {| layout := Some l; value := v |}
                      ∧ heap s3 = heap s2 ∧ bufs s3 = bufs s2
                      ∧ err s3 = err s2)).
  { apply wp_impl_ret_borrowed_struct; [ exact Hv | ].
    intros; repeat split; assumption. }
  destruct Hwp as (mv & s3 & Hrun3 & -> & H).
  exists s3. split; [ exact Hrun3 | exact H ].
Qed.

Lemma piecewise_construction_passes_layout_witness :
  ∃ construct,
    impl_MultiVector {| return_type := MultiVector Example.float64_mv;
                        args := [LayoutType; Array (Float NF64) 1 LayoutC] |}
    = Return construct
    ∧ ∃ unbox read_layout nv s1,
        unbox_MultiVector Example.float64_mv = Return unbox
        ∧ lower_getattr Example.float64_mv "layout" = Return (Some read_layout)
        ∧ unbox (Some Example.e1_addr) Example.world = Some (nv, s1)
        ∧ read_layout (nv_value nv) s1
          = Some (MLayout (Some Example.layout_addr), s1)
        ∧ ∀ (v : native_array) (s2 : state),
            nrt_valid s2 (meminfo v) →
            ∃ s3,
              construct (Some Example.layout_addr, v) s2
              = Some ({| layout := Some Example.layout_addr; value := v |}, s3)
              ∧ heap s3 = heap s2 ∧ bufs s3 = bufs s2 ∧ err s3 = err s2.
Proof.
  eexists. split; [ reflexivity | ].
  apply (piecewise_construction_passes_layout Example.world Example.e1_addr
           Example.layout_addr Example.e1_array Example.float64_mv
           (Float NF64) LayoutC).
  - vm_compute. reflexivity.
  - vm_compute. reflexivity.
  - reflexivity.
  - vm_compute. reflexivity.
  - eexists. vm_compute. reflexivity.
  - reflexivity.
  - reflexivity.
Defined.

Section UnboxFrame.

Implicit Types (s : state) (p : ptr) (elt : nb_type).

Lemma add_refcnt_frame (d : Z) (a : addr) s (u : unit) s' :
  (_ ← deref a; modify (set_heap (alter (add_refcnt d) a))) s = Some (u, s') →
  bufs s' = bufs s ∧ globals s' = globals s.
Proof.
  intros H. apply bind_inv in H as (o & s1 & H1 & H2).
  unfold deref in H1. destruct (heap s !! a); [ | discriminate ].
  inversion H1; subst. inversion H2; subst. split; reflexivity.
Qed.

Lemma decref_frame p s (u : unit) s' :
  decref p s = Some (u, s') → bufs s' = bufs s ∧ globals s' = globals s.
Proof.
  destruct p as [a | ]; simpl.
  - apply add_refcnt_frame.
  - intros H. inversion H. auto.
Qed.

Lemma getattr_frame p (attr : string) s (r : ptr) s' :
  object_getattr_string p attr s = Some (r, s') →
  bufs s' = bufs s ∧ globals s' = globals s.
Proof.
  destruct p as [o | ]; simpl; [ | discriminate ].
  intros H. apply bind_inv in H as (ob & s1 & H1 & H2).
  unfold deref in H1. destruct (heap s !! o); [ | discriminate ].
  inversion H1; subst. clear H1.
  destruct (attrs_of (ob_body ob) !! attr) as [v | ].
  - apply bind_inv in H2 as (u & s2 & H2 & H3).
    apply add_refcnt_frame in H2. inversion H3; subst. exact H2.
  - apply bind_inv in H2 as (u & s2 & H2 & H3).
    inversion H2; subst. inversion H3; subst. split; reflexivity.
Qed.

Lemma unbox_array_frame elt (ndim : nat) p s
    (nv : NativeValue native_array) s' :
  unbox_array elt ndim p s = Some (nv, s') →
  bufs s' = bufs s ∧ globals s' = globals s.
Proof.
  destruct p as [a | ]; simpl; [ | discriminate ].
  intros H. apply bind_inv in H as (ob & s1 & H1 & H2).
  unfold deref in H1. destruct (heap s !! a); [ | discriminate ].
  inversion H1; subst. clear H1.
  destruct (ob_body ob) as [nd | cls attrs | cname | dt ].
  - destruct (bool_decide (length (nd_shape nd) = ndim)); [ | discriminate ].
    apply bind_inv in H2 as (u & s2 & H2 & H3).
    apply add_refcnt_frame in H2 as [Hb Hg].
    apply bind_inv in H3 as (m & s3 & H3 & H4).
    inversion H3; subst m s3. clear H3.
    destruct (expected_itemsize elt) as [n | ]; cbn [itemsize] in H4.
    + destruct (Numpy.itemsize (nd_dtype nd) =? n)%Z; simpl in H4.
      * inversion H4; subst. simpl. auto.
      * apply bind_inv in H4 as (u' & s4 & H4 & H5).
        inversion H4; subst. inversion H5; subst. simpl. auto.
    + inversion H4; subst. simpl. auto.
  - apply bind_inv in H2 as (u & s2 & H2 & H3).
    inversion H2; subst. inversion H3; subst. simpl. auto.
  - apply bind_inv in H2 as (u & s2 & H2 & H3).
    inversion H2; subst. inversion H3; subst. simpl. auto.
  - apply bind_inv in H2 as (u & s2 & H2 & H3).
    inversion H2; subst. inversion H3; subst. simpl. auto.
Qed.

Lemma unbox_code_frame elt p s (nv : NativeValue MultiVectorStruct) s' :
  unbox_code elt p s = Some (nv, s') →
  bodies s' = bodies s ∧ bufs s' = bufs s ∧ globals s' = globals s.
Proof.
  unfold unbox_code. intros H.
  apply bind_inv in H as (rv & s1 & H1 & H).
  pose proof (getattr_frame _ _ _ _ _ H1) as [B1 G1].
  apply getattr_inv in H1 as (o & b & -> & _ & Hb1 & _ & _).
  apply bind_inv in H as (rl & s2 & H2 & H).
  pose proof (getattr_frame _ _ _ _ _ H2) as [B2 G2].
  apply getattr_inv in H2 as (o' & b' & _ & _ & Hb2 & _ & _).
  apply bind_inv in H as (l & s2' & H3 & H).
  apply ret_inv in H3 as [-> ->].
  apply bind_inv in H as (v & s3 & H4 & H).
  pose proof (unbox_array_frame _ _ _ _ _ _ H4) as [B3 G3].
  apply unbox_array_inv in H4 as (a & ba & _ & _ & Hb3 & _ & _).
  apply bind_inv in H as (u & s4 & H5 & H).
  pose proof (decref_frame _ _ _ _ H5) as [B4 G4].
  apply decref_inv in H5 as [_ Hb4].
  apply bind_inv in H as (u' & s5 & H6 & H).
  pose proof (decref_frame _ _ _ _ H6) as [B5 G5].
  apply decref_inv in H6 as [_ Hb5].
  apply bind_inv in H as (e & s6 & H7 & H).
  apply err_occurred_inv in H7 as [-> ->].
  apply ret_inv in H as [-> ->].
  split; [ | split ]; congruence.
Qed.

End UnboxFrame.

(** X12: unboxing never writes to host data.  Whatever the host object
    is, a run of the generated unboxer that returns (with or without its
    error flag) has changed no host object, no coefficient buffer and no
    global: only reference counts, the error indicator and the native
    runtime's bookkeeping differ. *)
Theorem unbox_never_writes (T : MultiVectorType)
    (code : ptr → M (NativeValue MultiVectorStruct)) (p : ptr) (s : state)
    (nv : NativeValue MultiVectorStruct) (s' : state) :
  unbox_MultiVector T = Return code →
  code p s = Some (nv, s') →
  bodies s' = bodies s ∧ bufs s' = bufs s ∧ globals s' = globals s.
Proof.
  intros Hcode Hrun. apply unbox_MultiVector_code in Hcode as (elt & _ & ->).
  eapply unbox_code_frame. exact Hrun.
Qed.

Lemma unbox_never_writes_witness :
  ∃ nv s',
    unbox_code (Float NF64) (Some Example.bare_addr) Example.world
    = Some (nv, s')
    ∧ bodies s' = bodies Example.world ∧ bufs s' = bufs Example.world
    ∧ globals s' = globals Example.world.
Proof.
  eexists _, _. split; [ vm_compute; reflexivity | ].
  eapply (unbox_never_writes Example.float64_mv (unbox_code (Float NF64))
            (Some Example.bare_addr) Example.world);
    [ reflexivity | vm_compute; reflexivity ].
Defined.
